(** * PaperTrader: a shallow embedding of [src/PaperTrader.py]

    The bot is a single Python script.  Its decision logic lives in
    [scan_indicators] (entry signal), in the first loop of [run_bot]
    (position sizing and cash accounting) and in the second loop of
    [run_bot] (exit rules and the rewrite of the ledger).

    Modelling conventions.
    - Python floats are modelled by exact rationals ([Q]); a missing
      value ([NaN]) is [None] in a [cell].  Rounding is not modelled.
    - A [datetime] is a number of microseconds, a calendar date (the text
      [YYYY-MM-DD] of the [entry] column) is its day number; [strftime]
      followed by [strptime] is the truncation to midnight.
    - The two CSV files are tables of rows ([None]: the file does not
      exist); their textual layout is not modelled.
    - Collaborators that are not code of the repository ([yfinance],
      [ta], [pandas.read_html], [smtplib], the clock) are fields of an
      environment [Env]; every theorem holds for every environment.
    - Python exceptions are explicit: a computation returns [Ok] or
      [Raise], and keeps the world it reached when it raises.  Every
      exception of the model is an [Exception] of Python, the kind
      [except Exception] catches.
    - [print], [time.sleep] and the formatting of prices in messages
      have no part in any decision and are left out. *)

From Stdlib Require Import List String Ascii Bool ZArith QArith Qround.
From Stdlib Require Import Lia Lqa Sorted DecimalString.
Import ListNotations.

Local Open Scope string_scope.
Local Open Scope Z_scope.
Local Open Scope list_scope.

(** ** Exceptions and results *)

Inductive exn : Type :=
| IndexError
| KeyError (key : string)
| ValueError
| OverflowError
| TypeError
| ExternalError (code : nat).

Inductive result (A : Type) : Type :=
| Ok (a : A)
| Raise (e : exn).

Arguments Ok {A} a.
Arguments Raise {A} e.

(** ** Numbers *)

Definition cell : Type := option Q.

Definition NaN : cell := None.

Definition Qltb (x y : Q) : bool := negb (Qle_bool y x).

(** Comparisons of floats: any comparison with [NaN] is false. *)
Definition cell_lt (a b : cell) : bool :=
  match a, b with
  | Some x, Some y => Qltb x y
  | _, _ => false
  end.

Definition cell_le (a b : cell) : bool :=
  match a, b with
  | Some x, Some y => Qle_bool x y
  | _, _ => false
  end.

Definition cell_gt (a b : cell) : bool := cell_lt b a.

Definition cell_ge (a b : cell) : bool := cell_le b a.

Definition notna (c : cell) : bool :=
  match c with
  | Some _ => true
  | None => false
  end.

(** ** Time *)

Definition day_us : Z := 86400000000.

(** [datetime.now().strftime("%Y-%m-%d")]: the calendar day of an instant. *)
Definition strftime (now : Z) : Z := now / day_us.

(** [datetime.strptime(entry_date, "%Y-%m-%d")]: midnight of that day. *)
Definition strptime (date : Z) : Z := date * day_us.

(** [timedelta(days=n)]. *)
Definition timedelta (days : Z) : Z := days * day_us.

(** ** pandas: the part of [DataFrame] the script uses *)

Module pd.

Record DataFrame : Type := mkDataFrame {
  columns : list string;
  rows : list (string -> cell)
}.

(** A row taken out of a frame ([df.iloc[-1]]): its labels and values. *)
Record Series : Type := mkSeries {
  labels : list string;
  values : string -> cell
}.

Definition has_label (c : string) (l : list string) : bool :=
  existsb (String.eqb c) l.

(** [df.empty]: one of the two axes has length zero. *)
Definition empty (df : DataFrame) : bool :=
  match columns df, rows df with
  | _ :: _, _ :: _ => false
  | _, _ => true
  end.

(** [df.dropna(inplace=True)]: rows with a missing value are removed. *)
Definition dropna (df : DataFrame) : DataFrame :=
  mkDataFrame (columns df)
    (filter (fun r => forallb (fun c => notna (r c)) (columns df)) (rows df)).

(** [df[c]]. *)
Definition getitem (df : DataFrame) (c : string) : result (list cell) :=
  if has_label c (columns df)
  then Ok (map (fun r => r c) (rows df))
  else Raise (KeyError c).

Fixpoint assign (c : string) (rs : list (string -> cell)) (col : list cell)
  : list (string -> cell) :=
  match rs with
  | [] => []
  | r :: rs' =>
      (fun c' => if String.eqb c' c then hd NaN col else r c')
        :: assign c rs' (tl col)
  end.

(** [df[c] = col], for a column indexed like the frame: positions the
    column does not cover are missing. *)
Definition setitem (df : DataFrame) (c : string) (col : list cell) : DataFrame :=
  mkDataFrame
    (if has_label c (columns df) then columns df else columns df ++ [c])
    (assign c (rows df) col).

(** [xs.iloc[-1]] on a column. *)
Definition iloc_last {A : Type} (xs : list A) : result A :=
  match rev xs with
  | [] => Raise IndexError
  | x :: _ => Ok x
  end.

(** [df.iloc[-1]] on a frame. *)
Definition last_row (df : DataFrame) : result Series :=
  match rev (rows df) with
  | [] => Raise IndexError
  | r :: _ => Ok (mkSeries (columns df) r)
  end.

(** [row[c]]. *)
Definition at_label (row : Series) (c : string) : result cell :=
  if has_label c (labels row) then Ok (values row c) else Raise (KeyError c).

End pd.

(** ** Data of the script *)

(** One daily bar as the price provider returns it (prices adjusted). *)
Record Bar : Type := mkBar {
  bar_open : cell;
  bar_high : cell;
  bar_low : cell;
  bar_close : cell;
  bar_volume : cell
}.

(** A table found on a web page: its column names and the content of its
    ["Symbol"] column (read only when the column exists). *)
Record HtmlTable : Type := mkHtmlTable {
  tcolumns : list string;
  symbols : list string
}.

(** A row of [buys.csv]: columns [ticker, price, entry, reason, shares]. *)
Record Position : Type := mkPosition {
  ticker : string;
  price : Q;
  entry : Z;
  reason : string;
  shares : Z
}.

(** A row of [exits.csv]: columns [ticker, price, exit, reason]. *)
Record ExitRecord : Type := mkExitRecord {
  exit_ticker : string;
  exit_price : cell;
  exit_date : Z;
  exit_reason : string
}.

(** A line of the report; prices are formatted by the mail layer. *)
Inductive Line : Type :=
| BuyLine (t : string) (p : Q) (reasons : string)
| SellLine (t : string) (p : cell) (why : string).

Inductive Block : Type :=
| BuysBlock (msgs : list Line)
| SellsBlock (msgs : list Line)
| NoTradesBlock.

(** What the script asks of the outside world, in order. *)
Inductive Event : Type :=
| EvReadHtml (url : string)
| EvDownload (t : string) (period : Z)
| EvSendMail (subject : string) (body : list Block).

(** The indicator library [ta]: each indicator maps its input columns to
    a column of the same index, or raises. *)
Record TA : Type := mkTA {
  ta_rsi : list cell -> result (list cell);
  ta_macd : list cell -> result (list cell);
  ta_macd_signal : list cell -> result (list cell);
  ta_bollinger_lband : list cell -> result (list cell);
  ta_bollinger_hband : list cell -> result (list cell);
  ta_adx : list cell -> list cell -> list cell -> result (list cell);
  ta_sma_indicator : Z -> list cell -> result (list cell)
}.

(** The collaborators.  The first argument of an oracle is the number of
    requests the run has made before: an answer may change over time. *)
Record Env : Type := mkEnv {
  read_html : nat -> string -> result (list HtmlTable);
  download : nat -> string -> Z -> result (option (list Bar));
  datetime_now : nat -> Z;
  ta : TA;
  smtp : nat -> result unit
}.

(** The environment variables read at start-up. *)
Record Config : Type := mkConfig {
  STARTING_CASH : Q;
  MAX_POSITION_SIZE : Q;
  MAX_HOLD_DAYS : Z
}.

(** The mutable world of a run. *)
Record World : Type := mkWorld {
  BUY_LOG : option (list Position);
  EXIT_LOG : option (list ExitRecord);
  stderr : list exn;
  events : list Event
}.

Definition set_BUY_LOG (f : option (list Position)) (w : World) : World :=
  mkWorld f (EXIT_LOG w) (stderr w) (events w).

Definition set_EXIT_LOG (f : option (list ExitRecord)) (w : World) : World :=
  mkWorld (BUY_LOG w) f (stderr w) (events w).

Definition add_stderr (e : exn) (w : World) : World :=
  mkWorld (BUY_LOG w) (EXIT_LOG w) (stderr w ++ [e]) (events w).

Definition add_event (ev : Event) (w : World) : World :=
  mkWorld (BUY_LOG w) (EXIT_LOG w) (stderr w) (events w ++ [ev]).

(** The rows of a CSV file; a file that does not exist has none. *)
Definition file_rows {A : Type} (f : option (list A)) : list A :=
  match f with
  | Some l => l
  | None => []
  end.

(** [row.to_csv(path, mode="a", header=not os.path.exists(path))]. *)
Definition append_row {A : Type} (f : option (list A)) (r : A) : option (list A) :=
  Some (file_rows f ++ [r]).

(** ** The monad of the script: state and exceptions *)

Definition M (A : Type) : Type := World -> result A * World.

Definition ret {A : Type} (a : A) : M A := fun w => (Ok a, w).

Definition raise {A : Type} (e : exn) : M A := fun w => (Raise e, w).

Definition bind {A B : Type} (m : M A) (k : A -> M B) : M B :=
  fun w =>
    match m w with
    | (Ok a, w') => k a w'
    | (Raise e, w') => (Raise e, w')
    end.

Notation "x <- m ;; k" := (bind m (fun x => k))
  (at level 61, m at next level, right associativity).

Notation "' pat <- m ;; k" := (bind m (fun x => match x with pat => k end))
  (at level 61, pat pattern, m at next level, right associativity).

Definition lift {A : Type} (r : result A) : M A :=
  match r with
  | Ok a => ret a
  | Raise e => raise e
  end.

(** [try: body  except Exception: handler]. *)
Definition try_except {A : Type} (body : M A) (handler : exn -> M A) : M A :=
  fun w =>
    match body w with
    | (Ok a, w') => (Ok a, w')
    | (Raise e, w') => handler e w'
    end.

(** [for x in xs: s = body(x, s)]. *)
Fixpoint for_each {A S : Type} (body : A -> S -> M S) (xs : list A) (s : S) : M S :=
  match xs with
  | [] => ret s
  | x :: xs' => s' <- body x s ;; for_each body xs' s'
  end.

(** ** Helpers of the Python runtime *)

(** [t.replace(".", "-")]. *)
Fixpoint replace_dot (t : string) : string :=
  match t with
  | EmptyString => EmptyString
  | String c t' =>
      String (if Ascii.eqb c "."%char then "-"%char else c) (replace_dot t')
  end.

(** [set(xs)]: one copy of every element. *)
Definition set (xs : list string) : list string := nodup string_dec xs.

Fixpoint insert_sorted (x : string) (xs : list string) : list string :=
  match xs with
  | [] => [x]
  | y :: ys => if String.leb x y then x :: xs else y :: insert_sorted x ys
  end.

(** [sorted(xs)] on strings: ascending code-point order. *)
Fixpoint sorted (xs : list string) : list string :=
  match xs with
  | [] => []
  | x :: xs' => insert_sorted x (sorted xs')
  end.

(** [", ".join(xs)]. *)
Definition join (xs : list string) : string := String.concat ", " xs.

(** [str(n)] for an integer. *)
Definition str (n : Z) : string := NilZero.string_of_int (Z.to_int n).

(** The truth value Python gives to an optional list or string. *)
Definition truthy_list {A : Type} (o : option (list A)) : bool :=
  match o with
  | Some (_ :: _) => true
  | _ => false
  end.

Definition truthy_str (o : option string) : bool :=
  match o with
  | Some (String _ _) => true
  | _ => false
  end.

(** [int(a // b)] on floats, [b] a NumPy scalar: a zero divisor gives an
    infinity or a NaN, which [int] refuses. *)
Definition int_floordiv (a b : Q) : result Z :=
  if Qeq_bool b 0
  then (if Qeq_bool a 0 then Raise ValueError else Raise OverflowError)
  else Ok (Qfloor (a / b)).

(** [(portfolio["price"] * portfolio["shares"]).sum()]. *)
Definition invested (portfolio : list Position) : Q :=
  fold_left (fun acc r => (acc + price r * inject_Z (shares r))%Q) portfolio 0%Q.

(** The frame [yf.download(..., auto_adjust=True)] builds from the bars. *)
Definition yf_frame (bars : list Bar) : pd.DataFrame :=
  pd.mkDataFrame ["Open"; "High"; "Low"; "Close"; "Volume"]
    (map (fun b c =>
            if String.eqb c "Open" then bar_open b
            else if String.eqb c "High" then bar_high b
            else if String.eqb c "Low" then bar_low b
            else if String.eqb c "Close" then bar_close b
            else if String.eqb c "Volume" then bar_volume b
            else NaN) bars).

Definition urls : list (string * string) :=
  [("S&P 400", "https://en.wikipedia.org/wiki/List_of_S%26P_400_companies");
   ("S&P 600", "https://en.wikipedia.org/wiki/List_of_S%26P_600_companies")].

(** The inner loop of [get_sp_list]: the first table with a ["Symbol"]
    column gives its symbols, then [break]. *)
Fixpoint symbol_column (tables : list HtmlTable) : list string :=
  match tables with
  | [] => []
  | table :: rest =>
      if pd.has_label "Symbol" (tcolumns table)
      then symbols table
      else symbol_column rest
  end.

(** The five labels of an entry signal, in the order the script tests them. *)
Definition canonical_reasons : list string :=
  ["RSI<50"; "MACD>Signal"; "Close<=BB_Upper"; "ADX>15"; "Close>SMA200"].

(** ** The script *)

Section PaperTrader.

Variable env : Env.
Variable cfg : Config.

(** *** Requests to the collaborators *)

Definition pd_read_html (url : string) : M (list HtmlTable) :=
  fun w =>
    (read_html env (List.length (events w)) url, add_event (EvReadHtml url) w).

(** [yf.download(ticker, period=..., interval="1d", auto_adjust=True)]. *)
Definition yf_download (t : string) (period : Z) : M (option pd.DataFrame) :=
  fun w =>
    let w' := add_event (EvDownload t period) w in
    match download env (List.length (events w)) t period with
    | Ok bars => (Ok (option_map yf_frame bars), w')
    | Raise e => (Raise e, w')
    end.

(** [datetime.now()]. *)
Definition now : M Z :=
  fun w => (Ok (datetime_now env (List.length (events w))), w).

(** [traceback.print_exc()]. *)
Definition print_exc (e : exn) : M unit :=
  fun w => (Ok tt, add_stderr e w).

(** *** Ticker source *)

Definition get_sp_list : M (list string) :=
  tickers <-
    for_each
      (fun url tickers =>
         try_except
           (tables <- pd_read_html url ;;
            ret (tickers ++ symbol_column tables))
           (fun _ => ret tickers))
      (map snd urls) [] ;;
  ret (sorted (set (map replace_dot tickers))).

(** *** Indicator scan *)

(** Lines 67-80: the reasons collected on the latest row. *)
Definition entry_reasons (rsi macd macd_signal close bb_upper adx sma_200 : cell)
  : list string :=
  let reasons := [] in
  let reasons :=
    if cell_lt rsi (Some 50%Q) then reasons ++ ["RSI<50"] else reasons in
  let reasons :=
    if cell_gt macd macd_signal then reasons ++ ["MACD>Signal"] else reasons in
  let reasons :=
    if cell_le close bb_upper then reasons ++ ["Close<=BB_Upper"] else reasons in
  let reasons :=
    if cell_gt adx (Some 15%Q) then reasons ++ ["ADX>15"] else reasons in
  let reasons :=
    if cell_gt close sma_200 then reasons ++ ["Close>SMA200"] else reasons in
  reasons.

(** Lines 53-65: the frame with its seven indicator columns, rows with a
    missing value removed before and after. *)
Definition add_indicators (df : pd.DataFrame) : M pd.DataFrame :=
  let df := pd.dropna df in
  close <- lift (pd.getitem df "Close") ;;
  rsi <- lift (ta_rsi (ta env) close) ;;
  let df := pd.setitem df "rsi" rsi in
  close <- lift (pd.getitem df "Close") ;;
  macd <- lift (ta_macd (ta env) close) ;;
  let df := pd.setitem df "macd" macd in
  macd_signal <- lift (ta_macd_signal (ta env) close) ;;
  let df := pd.setitem df "macd_signal" macd_signal in
  close <- lift (pd.getitem df "Close") ;;
  bb_lower <- lift (ta_bollinger_lband (ta env) close) ;;
  let df := pd.setitem df "bb_lower" bb_lower in
  bb_upper <- lift (ta_bollinger_hband (ta env) close) ;;
  let df := pd.setitem df "bb_upper" bb_upper in
  high <- lift (pd.getitem df "High") ;;
  low <- lift (pd.getitem df "Low") ;;
  close <- lift (pd.getitem df "Close") ;;
  adx <- lift (ta_adx (ta env) high low close) ;;
  let df := pd.setitem df "adx" adx in
  close <- lift (pd.getitem df "Close") ;;
  sma_200 <- lift (ta_sma_indicator (ta env) 200 close) ;;
  let df := pd.setitem df "sma_200" sma_200 in
  ret (pd.dropna df).

(** The body of the [try] of [scan_indicators]. *)
Definition scan_try (t : string)
  : M (option pd.DataFrame * option (list string)) :=
  df <- yf_download t 250 ;;
  match df with
  | None => ret (None, None)
  | Some df =>
      if pd.empty df then ret (None, None)
      else
        df <- add_indicators df ;;
        latest <- lift (pd.last_row df) ;;
        rsi <- lift (pd.at_label latest "rsi") ;;
        macd <- lift (pd.at_label latest "macd") ;;
        macd_signal <- lift (pd.at_label latest "macd_signal") ;;
        close <- lift (pd.at_label latest "Close") ;;
        bb_upper <- lift (pd.at_label latest "bb_upper") ;;
        adx <- lift (pd.at_label latest "adx") ;;
        sma_200 <- lift (pd.at_label latest "sma_200") ;;
        let reasons :=
          entry_reasons rsi macd macd_signal close bb_upper adx sma_200 in
        ret (Some df,
             if Nat.eqb (List.length reasons) 5 then Some reasons else None)
  end.

Definition scan_indicators (t : string)
  : M (option pd.DataFrame * option (list string)) :=
  try_except (scan_try t) (fun e => _ <- print_exc e ;; ret (None, None)).

(** *** The two files *)

Definition load_portfolio : M (list Position) :=
  fun w => (Ok (file_rows (BUY_LOG w)), w).

Definition log_buy (t : string) (p : Q) (why : string) (n : Z) : M unit :=
  today <- now ;;
  fun w =>
    (Ok tt,
     set_BUY_LOG
       (append_row (BUY_LOG w) (mkPosition t p (strftime today) why n)) w).

Definition log_exit (t : string) (p : cell) (why : string) : M unit :=
  today <- now ;;
  fun w =>
    (Ok tt,
     set_EXIT_LOG
       (append_row (EXIT_LOG w) (mkExitRecord t p (strftime today) why)) w).

(** [pd.DataFrame(to_keep).to_csv(BUY_LOG, index=False)]. *)
Definition rewrite_BUY_LOG (to_keep : list Position) : M unit :=
  fun w => (Ok tt, set_BUY_LOG (Some to_keep) w).

Definition send_email (subject : string) (body : list Block) : M unit :=
  fun w =>
    (smtp env (List.length (events w)), add_event (EvSendMail subject body) w).

(** *** Entry: lines 136-150, one turn of the loop over the tickers.
    The loop carries the balance and the buy messages. *)
Definition entry_body (portfolio : list Position) (t : string)
    (s : Q * list Line) : M (Q * list Line) :=
  let '(balance, buy_msgs) := s in
  if pd.has_label t (map ticker portfolio) then ret s
  else
    '(df, reasons) <- scan_indicators t ;;
    if truthy_list reasons then
      df <- lift (match df with Some df => Ok df | None => Raise TypeError end) ;;
      close <- lift (pd.getitem df "Close") ;;
      last_close <- lift (pd.iloc_last close) ;;
      p <- lift (match last_close with Some p => Ok p | None => Raise ValueError end) ;;
      let allocation := (STARTING_CASH cfg * MAX_POSITION_SIZE cfg)%Q in
      n <- lift (int_floordiv allocation p) ;;
      if (0 <? n) && Qle_bool (p * inject_Z n) balance then
        let why := join match reasons with Some l => l | None => [] end in
        _ <- log_buy t p why n ;;
        ret ((balance - p * inject_Z n)%Q, buy_msgs ++ [BuyLine t p why])
      else ret s
    else ret s.

(** *** Exit: lines 162-172, the rules on one position. *)
Definition max_hold_reason : string :=
  ("Max Hold " ++ str (MAX_HOLD_DAYS cfg) ++ " days")%string.

Definition exit_rule (row : Position) (df : pd.DataFrame) (latest : pd.Series)
  : M (option string) :=
  close <- lift (pd.at_label latest "Close") ;;
  if cell_ge close (Some (price row * (11 # 10))%Q) then
    ret (Some "Take Profit 10%")
  else if cell_le close (Some (price row * (93 # 100))%Q) then
    ret (Some "Stop Loss 7%")
  else
    today <- now ;;
    if today - strptime (entry row) >? timedelta (MAX_HOLD_DAYS cfg) then
      ret (Some max_hold_reason)
    else if pd.has_label "macd" (pd.columns df) then
      macd <- lift (pd.getitem df "macd") ;;
      m <- lift (pd.iloc_last macd) ;;
      macd_signal <- lift (pd.getitem df "macd_signal") ;;
      sg <- lift (pd.iloc_last macd_signal) ;;
      if cell_lt m sg then ret (Some "MACD cross down") else ret None
    else ret None.

(** Lines 155-178, one turn of the loop over the rows of the ledger.
    The loop carries [to_keep] and the sell messages. *)
Definition exit_body (row : Position) (s : list Position * list Line)
  : M (list Position * list Line) :=
  let '(to_keep, sell_msgs) := s in
  df <- yf_download (ticker row) 30 ;;
  match df with
  | None => ret s
  | Some df =>
      if pd.empty df then ret s
      else
        latest <- lift (pd.last_row df) ;;
        exit_reason <- exit_rule row df latest ;;
        if truthy_str exit_reason then
          let why := match exit_reason with Some r => r | None => EmptyString end in
          close <- lift (pd.at_label latest "Close") ;;
          _ <- log_exit (ticker row) close why ;;
          ret (to_keep, sell_msgs ++ [SellLine (ticker row) close why])
        else ret (to_keep ++ [row], sell_msgs)
  end.

(** *** Main logic *)

(** Lines 129-150. *)
Definition entry_phase : M (Q * list Line) :=
  portfolio <- load_portfolio ;;
  tickers <- get_sp_list ;;
  let balance := (STARTING_CASH cfg - invested portfolio)%Q in
  for_each (entry_body portfolio) tickers (balance, []).

(** Lines 153-180. *)
Definition exit_phase : M (list Line) :=
  updated_portfolio <- load_portfolio ;;
  '(to_keep, sell_msgs) <- for_each exit_body updated_portfolio ([], []) ;;
  _ <- rewrite_BUY_LOG to_keep ;;
  ret sell_msgs.

(** Lines 183-189. *)
Definition summary (buy_msgs sell_msgs : list Line) : list Block :=
  let s := [] in
  let s := match buy_msgs with [] => s | _ => s ++ [BuysBlock buy_msgs] end in
  let s := match sell_msgs with [] => s | _ => s ++ [SellsBlock sell_msgs] end in
  match s with
  | [] => [NoTradesBlock]
  | _ => s
  end.

Definition run_bot : M unit :=
  _ <- now ;;
  '(_, buy_msgs) <- entry_phase ;;
  sell_msgs <- exit_phase ;;
  send_email "📈 Daily Swing Trade Report" (summary buy_msgs sell_msgs).

End PaperTrader.

(** ** The exit rules as the specification words them

    Four ranked rules; the decision is the reason of the first rule of
    [rule_priority] that holds, and no rule holding means the position
    is retained. *)

Inductive Rule : Type :=
| TakeProfit
| StopLoss
| MaxHold
| TrendReversal.

Definition rule_priority : list Rule :=
  [TakeProfit; StopLoss; MaxHold; TrendReversal].

(** The max-hold test: [now - entryDate > maxHoldDays]. *)
Definition held_too_long (cfg : Config) (row : Position) (today : Z) : bool :=
  today - strptime (entry row) >? timedelta (MAX_HOLD_DAYS cfg).

(** [trend] is the outcome of the trend-reversal test on the frame. *)
Definition rule_holds (cfg : Config) (row : Position) (close : cell)
    (today : Z) (trend : bool) (r : Rule) : bool :=
  match r with
  | TakeProfit => cell_ge close (Some (price row * (11 # 10))%Q)
  | StopLoss => cell_le close (Some (price row * (93 # 100))%Q)
  | MaxHold => held_too_long cfg row today
  | TrendReversal => trend
  end.

Definition rule_reason (cfg : Config) (r : Rule) : string :=
  match r with
  | TakeProfit => "Take Profit 10%"
  | StopLoss => "Stop Loss 7%"
  | MaxHold => max_hold_reason cfg
  | TrendReversal => "MACD cross down"
  end.

Definition first_match (cfg : Config) (row : Position) (close : cell)
    (today : Z) (trend : bool) : option string :=
  option_map (rule_reason cfg)
    (find (rule_holds cfg row close today trend) rule_priority).

(** The trend-reversal test: [macd < macd_signal] on the latest row, and
    only when the frame has a [macd] column. *)
Definition trend_reversal (df : pd.DataFrame) : result bool :=
  if pd.has_label "macd" (pd.columns df) then
    match pd.getitem df "macd" with
    | Raise e => Raise e
    | Ok macd =>
        match pd.iloc_last macd with
        | Raise e => Raise e
        | Ok m =>
            match pd.getitem df "macd_signal" with
            | Raise e => Raise e
            | Ok macd_signal =>
                match pd.iloc_last macd_signal with
                | Raise e => Raise e
                | Ok sg => Ok (cell_lt m sg)
                end
            end
        end
    end
  else Ok false.

(** The reasons an exit on price or on time can carry. *)
Definition price_or_time_reason (cfg : Config) (r : string) : Prop :=
  r = "Take Profit 10%" \/ r = "Stop Loss 7%" \/ r = max_hold_reason cfg.

(** The exit records a loop added to [exits.csv], all with a reason on
    price or on time. *)
Definition exits_added (cfg : Config) (w w' : World) : Prop :=
  exists closed,
    file_rows (EXIT_LOG w') = file_rows (EXIT_LOG w) ++ closed
    /\ Forall (fun x => price_or_time_reason cfg (exit_reason x)) closed.

(** The clock a computation reads in world [w]. *)
Definition clock (env : Env) (w : World) : Z :=
  datetime_now env (List.length (events w)).

(** The five entry conditions on a latest row, as the specification
    lists them. *)
Definition five_conditions (latest : pd.Series) : bool :=
  cell_lt (pd.values latest "rsi") (Some 50%Q)
  && cell_gt (pd.values latest "macd") (pd.values latest "macd_signal")
  && cell_le (pd.values latest "Close") (pd.values latest "bb_upper")
  && cell_gt (pd.values latest "adx") (Some 15%Q)
  && cell_gt (pd.values latest "Close") (pd.values latest "sma_200").

(** The latest bar the indicator pipeline looks at for a ticker, when
    there is one: the last row of the downloaded series once the
    indicators are added and the incomplete rows removed. *)
Definition latest_snapshot (env : Env) (t : string) (w : World) : option pd.Series :=
  match download env (List.length (events w)) t 250 with
  | Ok (Some bars) =>
      match fst (add_indicators env (yf_frame bars) w) with
      | Ok df =>
          match pd.last_row df with
          | Ok latest => Some latest
          | Raise _ => None
          end
      | Raise _ => None
      end
  | _ => None
  end.

(** The signal the specification attaches to a latest bar. *)
Definition signal_of (latest : option pd.Series) : option (list string) :=
  match latest with
  | Some row => if five_conditions row then Some canonical_reasons else None
  | None => None
  end.

(** The outcome of the body of the [try] of [scan_indicators], by the
    answer of the provider. *)
Definition scan_outcome (env : Env) (t : string) (w : World)
  : result (option pd.DataFrame * option (list string)) :=
  match download env (List.length (events w)) t 250 with
  | Raise e => Raise e
  | Ok None => Ok (None, None)
  | Ok (Some bars) =>
      if pd.empty (yf_frame bars) then Ok (None, None)
      else
        match fst (add_indicators env (yf_frame bars) w) with
        | Raise e => Raise e
        | Ok df =>
            match pd.last_row df with
            | Raise e => Raise e
            | Ok latest => Ok (Some df, signal_of (Some latest))
            end
        end
  end.


(** The cost of a position: [price * shares]. *)
Definition cost (row : Position) : Q := (price row * inject_Z (shares row))%Q.

(** The share count of the sizing rule: [floor(allocation / price)] with
    [allocation = startingCash * maxPositionFraction]. *)
Definition sized_shares (cfg : Config) (p : Q) : Z :=
  Qfloor ((STARTING_CASH cfg * MAX_POSITION_SIZE cfg) / p)%Q.

(** How a turn of the entry loop on ticker [t] can end, from balance
    [balance] in world [w], [w2] being the world after the scan: the
    ticker is in the portfolio and nothing happens; the turn raises;
    nothing is bought; or a position is bought, sized by the rule and
    within the balance. *)
Definition entry_turn (cfg : Config) (portfolio : list Position) (t : string)
    (balance : Q) (buy_msgs : list Line) (w w2 : World)
    (turn : result (Q * list Line) * World) : Prop :=
  (pd.has_label t (map ticker portfolio) = true /\ turn = (Ok (balance, buy_msgs), w))
  \/ (pd.has_label t (map ticker portfolio) = false
      /\ ((exists e, turn = (Raise e, w2))
          \/ turn = (Ok (balance, buy_msgs), w2)
          \/ (exists row,
                ticker row = t
                /\ ~ (price row == 0)%Q
                /\ shares row = sized_shares cfg (price row)
                /\ 0 < shares row
                /\ (cost row <= balance)%Q
                /\ turn = (Ok ((balance - cost row)%Q,
                               buy_msgs ++ [BuyLine t (price row) (reason row)]),
                           set_BUY_LOG (append_row (BUY_LOG w2) row) w2)))).

(** What a loop over [tickers] did to the world: the tickers it scanned,
    each with one 250-day download, none of them in the portfolio, and
    the positions it appended to [buys.csv], all for scanned tickers. *)
Definition entry_trace (portfolio : list Position) (tickers : list string)
    (w w' : World) : Prop :=
  exists scanned bought,
    events w' = events w ++ map (fun t => EvDownload t 250) scanned
    /\ file_rows (BUY_LOG w') = file_rows (BUY_LOG w) ++ bought
    /\ EXIT_LOG w' = EXIT_LOG w
    /\ (forall t, In t scanned ->
          In t tickers /\ pd.has_label t (map ticker portfolio) = false)
    /\ (forall t, In t (map ticker bought) -> In t scanned)
    /\ (NoDup tickers -> NoDup scanned /\ NoDup (map ticker bought)).

(** ** Vocabulary of the further properties *)

(** The symbols a page contributes to [get_sp_list] when it is asked for
    as request number [n]: those of its first table with a ["Symbol"]
    column, and none when the page does not load. *)
Definition page_symbols (env : Env) (n : nat) (url : string) : list string :=
  match read_html env n url with
  | Ok tables => symbol_column tables
  | Raise _ => []
  end.

(** ["." in t]. *)
Fixpoint has_dot (t : string) : bool :=
  match t with
  | EmptyString => false
  | String c t' => Ascii.eqb c "."%char || has_dot t'
  end.

(** What the exit loop does with a row of the ledger. *)
Inductive Fate : Type :=
| Kept
| Dropped
| Closed (close : cell) (why : string).

(** The fate of a row whose download is request number [n] of the run:
    the clock is read after that request. *)
Definition row_verdict (env : Env) (cfg : Config) (n : nat) (row : Position)
  : result Fate :=
  match download env n (ticker row) 30 with
  | Raise e => Raise e
  | Ok None => Ok Dropped
  | Ok (Some bars) =>
      match rev bars with
      | [] => Ok Dropped
      | b :: _ =>
          match first_match cfg row (bar_close b) (datetime_now env (S n)) false with
          | Some why => Ok (Closed (bar_close b) why)
          | None => Ok Kept
          end
      end
  end.

(** The fates of the rows of a ledger whose first download is request
    number [n]: one request per row. *)
Fixpoint verdicts (env : Env) (cfg : Config) (n : nat) (rows : list Position)
  : list (result Fate) :=
  match rows with
  | [] => []
  | row :: rest => row_verdict env cfg n row :: verdicts env cfg (S n) rest
  end.

(** A row the rules keep when its download is the first request. *)
Definition kept_now (env : Env) (cfg : Config) (row : Position) : bool :=
  match row_verdict env cfg 0 row with
  | Ok Kept => true
  | _ => false
  end.

(** What an exit record says. *)
Definition exit_triple (x : ExitRecord) : string * cell * string :=
  (exit_ticker x, exit_price x, exit_reason x).

(** The rows of a ledger the loop kept, and the exits it recorded, as
    (ticker, price, reason), given the fate of each row. *)
Definition kept_rows (l : list (Position * Fate)) : list Position :=
  flat_map (fun rf => match snd rf with Kept => [fst rf] | _ => [] end) l.

Definition closed_rows (l : list (Position * Fate)) : list (string * cell * string) :=
  flat_map (fun rf =>
              match snd rf with
              | Closed c why => [(ticker (fst rf), c, why)]
              | _ => []
              end) l.

Definition sell_line (x : ExitRecord) : Line :=
  SellLine (exit_ticker x) (exit_price x) (exit_reason x).

Definition buy_line (r : Position) : Line :=
  BuyLine (ticker r) (price r) (reason r).


(** An exit record explained by a row of the ledger: the row has its
    ticker, and the reason names the first rule that held for the row at
    the recorded price. *)
Definition explained_by (cfg : Config) (row : Position) (x : ExitRecord) : Prop :=
  ticker row = exit_ticker x
  /\ ((exit_reason x = "Take Profit 10%"
       /\ cell_ge (exit_price x) (Some (price row * (11 # 10))%Q) = true)
      \/ (exit_reason x = "Stop Loss 7%"
          /\ cell_ge (exit_price x) (Some (price row * (11 # 10))%Q) = false
          /\ cell_le (exit_price x) (Some (price row * (93 # 100))%Q) = true)
      \/ (exit_reason x = max_hold_reason cfg
          /\ cell_ge (exit_price x) (Some (price row * (11 # 10))%Q) = false
          /\ cell_le (exit_price x) (Some (price row * (93 # 100))%Q) = false)).

(** The price of the entry signal of a ticker, when it has one: the
    close of its latest bar, the five conditions holding there. *)
Definition signal_price (env : Env) (t : string) (w : World) : option Q :=
  match latest_snapshot env t w with
  | Some latest => if five_conditions latest then pd.values latest "Close" else None
  | None => None
  end.

(** A position as the entry loop writes it for a signal: the five
    reasons, a price that is not zero, the share count of the sizing
    rule, at least one share. *)
Definition as_sized (cfg : Config) (row : Position) : Prop :=
  reason row = join canonical_reasons
  /\ ~ (price row == 0)%Q
  /\ shares row = sized_shares cfg (price row)
  /\ 0 < shares row.

(** An environment whose answers do not change during the run. *)
Definition stationary (env : Env) : Prop :=
  (forall n t period, download env n t period = download env 0%nat t period)
  /\ (forall n, datetime_now env n = datetime_now env 0%nat).

(** ** Fixtures: small markets and ledgers used by the examples *)

Definition flat_bar (close : Q) : Bar :=
  mkBar (Some close) (Some close) (Some close) (Some close) (Some 1000%Q).

(** An indicator library whose columns are constant: every row reads
    [rsi], [macd], [macd_signal], band, [adx] and [sma_200] as given. *)
Definition const_ta (rsi macd macd_signal bb adx sma : Q) : TA :=
  mkTA (fun c => Ok (map (fun _ => Some rsi) c))
       (fun c => Ok (map (fun _ => Some macd) c))
       (fun c => Ok (map (fun _ => Some macd_signal) c))
       (fun c => Ok (map (fun _ => Some bb) c))
       (fun c => Ok (map (fun _ => Some bb) c))
       (fun _ _ c => Ok (map (fun _ => Some adx) c))
       (fun _ c => Ok (map (fun _ => Some sma) c)).

(** An indicator library that fails on every input. *)
Definition failing_ta : TA :=
  mkTA (fun _ => Raise (ExternalError 1)) (fun _ => Raise (ExternalError 1))
       (fun _ => Raise (ExternalError 1)) (fun _ => Raise (ExternalError 1))
       (fun _ => Raise (ExternalError 1))
       (fun _ _ _ => Raise (ExternalError 1))
       (fun _ _ => Raise (ExternalError 1)).

(** A market given by a table: tickers it does not list have no data. *)
Definition market_env (market : string -> option (list Bar)) (lib : TA)
    (page : list HtmlTable) (time : nat -> Z) : Env :=
  mkEnv (fun _ _ => Ok page) (fun _ t _ => Ok (market t)) time lib
        (fun _ => Ok tt).

Definition default_cfg : Config := mkConfig 10000 (5 # 100) 14.

(** The latest row of a one-bar series. *)
Definition latest_of (b : Bar) : pd.Series :=
  pd.mkSeries (pd.columns (yf_frame [b])) (hd (fun _ => NaN) (pd.rows (yf_frame [b]))).

(** A position in AAA: 10 shares bought at 100 on day 0. *)
Definition aaa : Position := mkPosition "AAA" 100 0 (join canonical_reasons) 10.

(** A position in BBB: 4 shares bought at 50 on day 0. *)
Definition bbb : Position := mkPosition "BBB" 50 0 (join canonical_reasons) 4.

(** AAA has no data today; BBB closed at 50. *)
Definition aaa_missing (t : string) : option (list Bar) :=
  if String.eqb t "BBB" then Some [flat_bar 50] else
  if String.eqb t "AAA" then Some [] else None.

(** Indicators under which every bar closing between 20 and 30 gives an
    entry signal. *)
Definition bullish_ta : TA := const_ta 40 1 0 30 20 20.

(** A page listing the symbols ABC and XYZ. *)
Definition two_symbols : list HtmlTable :=
  [mkHtmlTable ["Symbol"; "Security"] ["XYZ"; "ABC"]].

(** Every ticker closed at 25 and signals an entry. *)
Definition bull_env : Env :=
  market_env (fun _ => Some [flat_bar 25]) bullish_ta two_symbols
    (fun _ => 0).

(** Every ticker closed at 25, with a momentum of 60: no entry signal. *)
Definition bear_env : Env :=
  market_env (fun _ => Some [flat_bar 25]) (const_ta 60 1 0 30 20 20) two_symbols
    (fun _ => 0).

(** A position in ABC: 20 shares bought at 25 on day 0. *)
Definition abc : Position := mkPosition "ABC" 25 0 (join canonical_reasons) 20.

(** An older position that ties up [value] of the starting cash. *)
Definition held (value : Q) : Position :=
  mkPosition "HELD" value 0 (join canonical_reasons) 1.

(** AAA closed at 111, BBB at 50, nothing came back for the others. *)
Definition mixed_market (t : string) : option (list Bar) :=
  if String.eqb t "AAA" then Some [flat_bar 111] else
  if String.eqb t "BBB" then Some [flat_bar 50] else Some [].



(** A clock that stands still. *)
Definition at_time (t : Z) : nat -> Z := fun _ => t.

(** No ticker has data, no page lists a symbol. *)
Definition silent_env (time : nat -> Z) : Env :=
  market_env (fun _ => None) failing_ta [] time.

(** A clock that starts on day 13 at 18:00 and advances by one day with
    every request made to the outside world. *)
Definition daily_clock : nat -> Z :=
  fun n => 13 * day_us + 64800000000 + Z.of_nat n * day_us.

Definition fresh_world : World := mkWorld None None [] [].

Definition world_with (ledger : list Position) : World :=
  mkWorld (Some ledger) None [] [].

(** * Properties *)

(** ** The monad *)

Lemma bind_lift {A B : Type} (r : result A) (k : A -> M B) (w : World) :
  bind (lift r) k w
  = match r with
    | Ok a => k a w
    | Raise e => (Raise e, w)
    end.
Proof. now destruct r. Qed.


(** A relation between worlds that every turn of a loop establishes is
    established by the loop, whether it ends or raises. *)
Lemma for_each_world {A S : Type} (body : A -> S -> M S) (R : World -> World -> Prop) :
  (forall w, R w w) ->
  (forall w1 w2 w3, R w1 w2 -> R w2 w3 -> R w1 w3) ->
  (forall x s w, R w (snd (body x s w))) ->
  forall xs s w, R w (snd (for_each body xs s w)).
Proof.
  intros Hrefl Htrans Hbody xs; induction xs as [|x xs IH]; intros s w; simpl.
  - apply Hrefl.
  - unfold bind. specialize (Hbody x s w).
    destruct (body x s w) as [[s1|e] w1]; simpl in *.
    + eapply Htrans; [exact Hbody|apply IH].
    + exact Hbody.
Qed.

(** ** World bookkeeping of the requests *)

Lemma yf_download_world (env : Env) (t : string) (period : Z) (w : World) :
  snd (yf_download env t period w) = add_event (EvDownload t period) w.
Proof. unfold yf_download; now destruct (download env _ t period). Qed.

(** ** Exit rules *)

Lemma max_hold_reason_prefix (cfg : Config) :
  exists rest, max_hold_reason cfg = String "M" (String "a" rest).
Proof. unfold max_hold_reason; simpl; eauto. Qed.

Lemma exit_rule_trend (env : Env) (cfg : Config) (row : Position) (df : pd.DataFrame)
    (latest : pd.Series) (w : World) (close : cell) (trend : bool) :
  pd.at_label latest "Close" = Ok close ->
  trend_reversal df = Ok trend ->
  exit_rule env cfg row df latest w
  = (Ok (first_match cfg row close (clock env w) trend), w).
Proof.
  intros Hclose Htrend. unfold exit_rule, first_match, trend_reversal, clock, rule_priority in *.
  rewrite Hclose. cbv beta iota delta [bind lift ret raise now].
  cbn [find rule_holds]. unfold held_too_long.
  destruct (cell_ge close _); [reflexivity|].
  destruct (cell_le close _); [reflexivity|].
  destruct (_ >? _); [reflexivity|].
  destruct (pd.has_label "macd" (pd.columns df)).
  - destruct (pd.getitem df "macd") as [macd|]; [|discriminate].
    destruct (pd.iloc_last macd) as [m|]; [|discriminate].
    destruct (pd.getitem df "macd_signal") as [sgs|]; [|discriminate].
    destruct (pd.iloc_last sgs) as [sg|]; [|discriminate].
    inversion Htrend; subst. now destruct (cell_lt m sg).
  - now inversion Htrend.
Qed.

Lemma exit_rule_early (env : Env) (cfg : Config) (row : Position) (df : pd.DataFrame)
    (latest : pd.Series) (w : World) (close : cell) (r : Rule) :
  pd.at_label latest "Close" = Ok close ->
  find (rule_holds cfg row close (clock env w) false) rule_priority = Some r ->
  exit_rule env cfg row df latest w = (Ok (Some (rule_reason cfg r)), w).
Proof.
  intros Hclose Hfind. unfold exit_rule, clock, rule_priority in *.
  rewrite Hclose. cbv beta iota delta [bind lift ret raise now].
  cbn [find rule_holds] in Hfind. unfold held_too_long in Hfind.
  destruct (cell_ge close _); [now inversion Hfind|].
  destruct (cell_le close _); [now inversion Hfind|].
  destruct (_ >? _); [now inversion Hfind|].
  discriminate.
Qed.

(** The latest row of a downloaded series carries the close of its last
    bar. *)
Lemma download_latest_close (bars : list Bar) (b : Bar) (latest : pd.Series) :
  pd.last_row (yf_frame (bars ++ [b])) = Ok latest ->
  pd.at_label latest "Close" = Ok (bar_close b).
Proof.
  unfold pd.last_row, yf_frame. cbn [pd.rows pd.columns].
  rewrite map_app. cbn [map]. rewrite rev_unit. intros H. inversion H. reflexivity.
Qed.

(** ** One turn of the exit loop *)

Lemma yf_frame_no_macd (bars : list Bar) :
  pd.has_label "macd" (pd.columns (yf_frame bars)) = false.
Proof. reflexivity. Qed.

Lemma max_hold_reason_not_macd (cfg : Config) :
  max_hold_reason cfg <> "MACD cross down".
Proof.
  destruct (max_hold_reason_prefix cfg) as [rest ->]. discriminate.
Qed.

Lemma price_or_time_reason_truthy (cfg : Config) (r : string) :
  price_or_time_reason cfg r -> truthy_str (Some r) = true /\ r <> "MACD cross down".
Proof.
  intros [-> | [-> | ->]]; (split; [reflexivity|]);
    first [discriminate | apply max_hold_reason_not_macd].
Qed.

(** On a downloaded frame the rules never change the world, and decide
    on price or on time only. *)
Lemma exit_rule_on_download (env : Env) (cfg : Config) (row : Position)
    (bars : list Bar) (latest : pd.Series) (w : World) :
  exists r, exit_rule env cfg row (yf_frame bars) latest w = (r, w)
    /\ match r with
       | Raise e => pd.at_label latest "Close" = Raise e
       | Ok None => exists close, pd.at_label latest "Close" = Ok close
       | Ok (Some why) =>
           (exists close, pd.at_label latest "Close" = Ok close)
           /\ price_or_time_reason cfg why
       end.
Proof.
  unfold exit_rule. rewrite yf_frame_no_macd.
  destruct (pd.at_label latest "Close") as [close|e];
    cbv beta iota delta [bind lift ret raise now];
    [|eexists; split; reflexivity].
  unfold price_or_time_reason.
  destruct (cell_ge close (Some (price row * (11 # 10))%Q));
    [eexists; split; [reflexivity|]; simpl; split; eauto|].
  destruct (cell_le close (Some (price row * (93 # 100))%Q));
    [eexists; split; [reflexivity|]; simpl; split; eauto|].
  cbv beta.
  destruct (datetime_now env (List.length (events w)) - strptime (entry row)
            >? timedelta (MAX_HOLD_DAYS cfg));
    eexists; (split; [reflexivity|]); simpl; [split|]; eauto.
Qed.

(** The four ways a turn of the exit loop can end: it raises; the row is
    dropped because no data came back; the row is kept; the row is
    closed, with one exit record whose reason is on price or on time. *)
Lemma exit_body_cases (env : Env) (cfg : Config) (row : Position)
    (to_keep : list Position) (sell_msgs : list Line) (w : World) :
  let w1 := add_event (EvDownload (ticker row) 30) w in
  let turn := exit_body env cfg row (to_keep, sell_msgs) w in
  (exists e, turn = (Raise e, w1))
  \/ (turn = (Ok (to_keep, sell_msgs), w1)
      /\ exists o, download env (List.length (events w)) (ticker row) 30 = Ok o
           /\ match o with Some (_ :: _) => False | _ => True end)
  \/ turn = (Ok (to_keep ++ [row], sell_msgs), w1)
  \/ (exists close why,
        price_or_time_reason cfg why
        /\ turn = (Ok (to_keep, sell_msgs ++ [SellLine (ticker row) close why]),
                   set_EXIT_LOG
                     (append_row (EXIT_LOG w1)
                        (mkExitRecord (ticker row) close (strftime (clock env w1)) why))
                     w1)).
Proof.
  intros w1 turn. subst turn. unfold exit_body, bind.
  pose proof (yf_download_world env (ticker row) 30 w) as Hw.
  unfold yf_download in *.
  destruct (download env (List.length (events w)) (ticker row) 30) as [[bars|]|e];
    simpl in *.
  - destruct bars as [|b bars].
    + right; left. split; [reflexivity|]. eexists; split; [reflexivity|exact I].
    + change (pd.empty (yf_frame (b :: bars))) with false. cbv iota.
      destruct (pd.last_row (yf_frame (b :: bars))) as [latest|e] eqn:Hlast;
        cbv beta iota delta [lift ret raise]; [|left; eauto].
      destruct (exit_rule_on_download env cfg row (b :: bars) latest w1)
        as [r [Hr Hcases]].
      fold w1. rewrite Hr.
      destruct r as [[why|]|e].
      * destruct Hcases as [[close Hclose] Hwhy].
        destruct (price_or_time_reason_truthy cfg why Hwhy) as [Htruthy _].
        rewrite Htruthy, Hclose. cbv beta iota.
        right; right; right. exists close, why. split; [exact Hwhy|].
        reflexivity.
      * right; right; left. reflexivity.
      * left; eauto.
  - right; left. split; [reflexivity|]. eexists; split; [reflexivity|exact I].
  - left; eauto.
Qed.

Lemma yf_frame_not_empty (bars : list Bar) (b : Bar) :
  pd.empty (yf_frame (bars ++ [b])) = false.
Proof. destruct bars; reflexivity. Qed.

(** A turn of the exit loop on a series with a last bar follows the
    decision of the rules: a reason closes the position, with one exit
    record at the latest close, and no reason keeps the row. *)
Lemma exit_body_decision (env : Env) (cfg : Config) (row : Position)
    (to_keep : list Position) (sell_msgs : list Line) (w : World)
    (bars : list Bar) (b : Bar) (latest : pd.Series) :
  download env (List.length (events w)) (ticker row) 30 = Ok (Some (bars ++ [b])) ->
  pd.last_row (yf_frame (bars ++ [b])) = Ok latest ->
  let w1 := add_event (EvDownload (ticker row) 30) w in
  exit_body env cfg row (to_keep, sell_msgs) w
  = match fst (exit_rule env cfg row (yf_frame (bars ++ [b])) latest w1) with
    | Ok (Some why) =>
        (Ok (to_keep, sell_msgs ++ [SellLine (ticker row) (bar_close b) why]),
         set_EXIT_LOG
           (append_row (EXIT_LOG w1)
              (mkExitRecord (ticker row) (bar_close b) (strftime (clock env w1)) why))
           w1)
    | Ok None => (Ok (to_keep ++ [row], sell_msgs), w1)
    | Raise e => (Raise e, w1)
    end.
Proof.
  intros Hd Hlast w1. unfold exit_body, bind at 1, yf_download. rewrite Hd.
  cbn [option_map]. fold w1. cbv iota beta. rewrite yf_frame_not_empty.
  rewrite bind_lift, Hlast. unfold bind at 1.
  destruct (exit_rule_on_download env cfg row (bars ++ [b]) latest w1)
    as [r [Hr Hcases]].
  rewrite Hr. cbn [fst]. destruct r as [[why|]|e]; try reflexivity.
  destruct Hcases as [_ Hwhy].
  destruct (price_or_time_reason_truthy cfg why Hwhy) as [Htruthy _].
  rewrite Htruthy, bind_lift, (download_latest_close bars b latest Hlast).
  reflexivity.
Qed.

(** C3.  On a position whose fresh series has a latest close, the exit
    decision is the reason of the first rule that holds in the order
    take-profit, stop-loss, max-hold, trend-reversal, and there is no
    reason when none holds; once a rule holds the later ones are not
    evaluated (the decision is reached even where the trend test would
    raise); so take-profit and stop-loss win over max-hold and trend
    reversal, and max-hold wins over trend reversal.  The loop follows
    the decision: a reason closes the position with one exit record, no
    reason keeps its row. *)
Theorem exit_rule_first_match (env : Env) (cfg : Config) (row : Position)
    (df : pd.DataFrame) (latest : pd.Series) (w : World) (close : cell) :
  pd.at_label latest "Close" = Ok close ->
  let holds := rule_holds cfg row close (clock env w) in
  let decision := exit_rule env cfg row df latest w in
  (forall trend, trend_reversal df = Ok trend ->
     decision = (Ok (first_match cfg row close (clock env w) trend), w))
  /\ (forall r, find (holds false) rule_priority = Some r ->
        decision = (Ok (Some (rule_reason cfg r)), w))
  /\ (forall trend, holds trend TakeProfit = true ->
        decision = (Ok (Some "Take Profit 10%"), w))
  /\ (forall trend, holds trend TakeProfit = false -> holds trend StopLoss = true ->
        decision = (Ok (Some "Stop Loss 7%"), w))
  /\ (forall trend, holds trend TakeProfit = false -> holds trend StopLoss = false ->
        holds trend MaxHold = true ->
        decision = (Ok (Some (max_hold_reason cfg)), w))
  /\ (holds true TakeProfit = false -> holds true StopLoss = false ->
        holds true MaxHold = false -> trend_reversal df = Ok true ->
        decision = (Ok (Some "MACD cross down"), w))
  /\ (holds false TakeProfit = false -> holds false StopLoss = false ->
        holds false MaxHold = false -> trend_reversal df = Ok false ->
        decision = (Ok None, w))
  /\ (forall bars b to_keep sell_msgs w0,
        download env (List.length (events w0)) (ticker row) 30 = Ok (Some (bars ++ [b])) ->
        pd.last_row (yf_frame (bars ++ [b])) = Ok latest ->
        let w1 := add_event (EvDownload (ticker row) 30) w0 in
        exit_body env cfg row (to_keep, sell_msgs) w0
        = match fst (exit_rule env cfg row (yf_frame (bars ++ [b])) latest w1) with
          | Ok (Some why) =>
              (Ok (to_keep, sell_msgs ++ [SellLine (ticker row) (bar_close b) why]),
               set_EXIT_LOG
                 (append_row (EXIT_LOG w1)
                    (mkExitRecord (ticker row) (bar_close b)
                       (strftime (clock env w1)) why))
                 w1)
          | Ok None => (Ok (to_keep ++ [row], sell_msgs), w1)
          | Raise e => (Raise e, w1)
          end).
Proof.
  intros Hclose holds decision. subst holds decision.
  split; [|split; [|split; [|split; [|split; [|split; [|split]]]]]].
  - intros trend Ht. exact (exit_rule_trend env cfg row df latest w close trend Hclose Ht).
  - intros r Hr. exact (exit_rule_early env cfg row df latest w close r Hclose Hr).
  - intros trend H. apply (exit_rule_early env cfg row df latest w close TakeProfit Hclose).
    simpl in *. now rewrite H.
  - intros trend H1 H2. apply (exit_rule_early env cfg row df latest w close StopLoss Hclose).
    simpl in *. now rewrite H1, H2.
  - intros trend H1 H2 H3. apply (exit_rule_early env cfg row df latest w close MaxHold Hclose).
    simpl in *. now rewrite H1, H2, H3.
  - intros H1 H2 H3 Ht. rewrite (exit_rule_trend env cfg row df latest w close true Hclose Ht).
    unfold first_match. simpl in *. now rewrite H1, H2, H3.
  - intros H1 H2 H3 Ht. rewrite (exit_rule_trend env cfg row df latest w close false Hclose Ht).
    unfold first_match. simpl in *. now rewrite H1, H2, H3.
  - intros bars b to_keep sell_msgs w0 Hd Hlast.
    exact (exit_body_decision env cfg row to_keep sell_msgs w0 bars b latest Hd Hlast).
Qed.

(** Scenarios A, B and C: bought at 100; a close of 111 takes profit, a
    close of 92 stops the loss, and an unchanged close twenty days after
    the entry, with a limit of fourteen, is a max-hold exit. *)
Lemma exit_rule_first_match_witness :
  pd.at_label (latest_of (flat_bar 111)) "Close" = Ok (Some 111%Q)
  /\ exit_rule (silent_env (at_time 0)) default_cfg aaa
       (yf_frame [flat_bar 111]) (latest_of (flat_bar 111)) fresh_world
     = (Ok (Some "Take Profit 10%"), fresh_world)
  /\ exit_rule (silent_env (at_time 0)) default_cfg aaa
       (yf_frame [flat_bar 92]) (latest_of (flat_bar 92)) fresh_world
     = (Ok (Some "Stop Loss 7%"), fresh_world)
  /\ exit_rule (silent_env (at_time (20 * day_us))) default_cfg aaa
       (yf_frame [flat_bar 100]) (latest_of (flat_bar 100)) fresh_world
     = (Ok (Some "Max Hold 14 days"), fresh_world).
Proof.
  split; [reflexivity|]. split; [|split].
  - apply (proj1 (proj2 (proj2
      (exit_rule_first_match (silent_env (at_time 0)) default_cfg aaa
         (yf_frame [flat_bar 111]) (latest_of (flat_bar 111)) fresh_world
         (Some 111%Q) eq_refl))) false).
    reflexivity.
  - apply (proj1 (proj2 (proj2 (proj2
      (exit_rule_first_match (silent_env (at_time 0)) default_cfg aaa
         (yf_frame [flat_bar 92]) (latest_of (flat_bar 92)) fresh_world
         (Some 92%Q) eq_refl)))) false); reflexivity.
  - apply (proj1 (proj2 (proj2 (proj2 (proj2
      (exit_rule_first_match (silent_env (at_time (20 * day_us))) default_cfg aaa
         (yf_frame [flat_bar 100]) (latest_of (flat_bar 100)) fresh_world
         (Some 100%Q) eq_refl))))) false); reflexivity.
Defined.

(** C9, as stated, fails: the max-hold rule reads the clock.  AAA was
    bought at 100 on day 0 and its latest close is 100.  Evaluated on day
    13 at 18:00 the position is retained; evaluated one day later, on the
    same position and the same bars, it is closed for max hold. *)
Lemma exit_rule_changes_with_clock :
  let env := silent_env daily_clock in
  let df := yf_frame [flat_bar 100] in
  let latest := latest_of (flat_bar 100) in
  let w1 := world_with [aaa] in
  let w2 := add_event (EvDownload "AAA" 30) (world_with [aaa]) in
  BUY_LOG w1 = BUY_LOG w2
  /\ fst (exit_rule env default_cfg aaa df latest w1) = Ok None
  /\ fst (exit_rule env default_cfg aaa df latest w2) = Ok (Some "Max Hold 14 days").
Proof. repeat split. Qed.

(** C9, amended.  Two evaluations of the exit rules on the same position
    and the same bars give the same decision whenever the max-hold test
    has the same outcome at both, in particular when both read the same
    clock value. *)
Theorem exit_rule_same_decision (env : Env) (cfg : Config) (row : Position)
    (df : pd.DataFrame) (latest : pd.Series) (w1 w2 : World) :
  held_too_long cfg row (clock env w1) = held_too_long cfg row (clock env w2) ->
  fst (exit_rule env cfg row df latest w1) = fst (exit_rule env cfg row df latest w2).
Proof.
  unfold held_too_long, clock, exit_rule. intros Hclock.
  destruct (pd.at_label latest "Close") as [close|e];
    cbv beta iota delta [bind lift ret raise now]; [|reflexivity].
  destruct (cell_ge close _); [reflexivity|].
  destruct (cell_le close _); [reflexivity|].
  set (h1 := datetime_now env (List.length (events w1)) - _ >? _) in *.
  set (h2 := datetime_now env (List.length (events w2)) - _ >? _) in *.
  clearbody h1 h2. subst h2. destruct h1; [reflexivity|].
  destruct (pd.has_label "macd" (pd.columns df)); [|reflexivity].
  destruct (pd.getitem df "macd") as [macd|]; [|reflexivity].
  destruct (pd.iloc_last macd) as [m|]; [|reflexivity].
  destruct (pd.getitem df "macd_signal") as [sgs|]; [|reflexivity].
  destruct (pd.iloc_last sgs) as [sg|]; [|reflexivity].
  now destruct (cell_lt m sg).
Qed.

(** Two evaluations on day 13, at 18:00 and at 23:00, agree. *)
Lemma exit_rule_same_decision_witness :
  let env := silent_env (fun n => 13 * day_us + 64800000000 + Z.of_nat n * 18000000000) in
  let w1 := world_with [aaa] in
  let w2 := add_event (EvDownload "AAA" 30) (world_with [aaa]) in
  clock env w1 <> clock env w2
  /\ fst (exit_rule env default_cfg aaa (yf_frame [flat_bar 100])
            (latest_of (flat_bar 100)) w1)
     = fst (exit_rule env default_cfg aaa (yf_frame [flat_bar 100])
              (latest_of (flat_bar 100)) w2).
Proof.
  split; [discriminate|].
  apply (exit_rule_same_decision
           (silent_env (fun n => 13 * day_us + 64800000000 + Z.of_nat n * 18000000000))
           default_cfg aaa (yf_frame [flat_bar 100]) (latest_of (flat_bar 100))
           (world_with [aaa]) (add_event (EvDownload "AAA" 30) (world_with [aaa]))).
  reflexivity.
Defined.

Lemma exits_added_refl (cfg : Config) (w : World) : exits_added cfg w w.
Proof. exists []. split; [now rewrite app_nil_r|constructor]. Qed.

Lemma exits_added_trans (cfg : Config) (w1 w2 w3 : World) :
  exits_added cfg w1 w2 -> exits_added cfg w2 w3 -> exits_added cfg w1 w3.
Proof.
  intros [c1 [H1 F1]] [c2 [H2 F2]]. exists (c1 ++ c2). split.
  - now rewrite H2, H1, app_assoc.
  - apply Forall_app; now split.
Qed.

Lemma exit_body_exits_added (env : Env) (cfg : Config) (row : Position)
    (s : list Position * list Line) (w : World) :
  exits_added cfg w (snd (exit_body env cfg row s w)).
Proof.
  destruct s as [to_keep sell_msgs].
  destruct (exit_body_cases env cfg row to_keep sell_msgs w)
    as [[e ->] | [[-> _] | [-> | [close [why [Hwhy ->]]]]]]; simpl;
    try (exists []; split; [simpl; now rewrite app_nil_r|constructor]).
  exists [mkExitRecord (ticker row) close
            (strftime (clock env (add_event (EvDownload (ticker row) 30) w))) why].
  split; [reflexivity|]. constructor; [exact Hwhy|constructor].
Qed.

(** C10.  The frame downloaded for the exit evaluation has the five
    price columns and no [macd] column, so the trend-reversal branch is
    never taken: a decision of the exit rules on such a frame is take
    profit, stop loss, max hold or retention, and every exit record a
    run appends carries one of the first three reasons, never
    "MACD cross down". *)
Theorem macd_cross_down_never_produced (env : Env) (cfg : Config) :
  (forall bars, pd.columns (yf_frame bars) = ["Open"; "High"; "Low"; "Close"; "Volume"]
                /\ pd.has_label "macd" (pd.columns (yf_frame bars)) = false)
  /\ (forall row bars latest w,
        match fst (exit_rule env cfg row (yf_frame bars) latest w) with
        | Ok (Some why) => price_or_time_reason cfg why /\ why <> "MACD cross down"
        | Ok None => True
        | Raise _ => True
        end)
  /\ (forall w, exists closed,
        file_rows (EXIT_LOG (snd (exit_phase env cfg w)))
        = file_rows (EXIT_LOG w) ++ closed
        /\ Forall (fun x => price_or_time_reason cfg (exit_reason x)
                            /\ exit_reason x <> "MACD cross down") closed).
Proof.
  split; [intros bars; split; reflexivity|]. split.
  - intros row bars latest w.
    destruct (exit_rule_on_download env cfg row bars latest w) as [r [-> Hr]].
    simpl. destruct r as [[why|]|e]; try exact I.
    destruct Hr as [_ Hwhy]. split; [exact Hwhy|].
    now apply (price_or_time_reason_truthy cfg).
  - intros w.
    assert (exits_added cfg w (snd (exit_phase env cfg w))) as [closed [Hrows Hall]].
    { unfold exit_phase, bind, load_portfolio.
      pose proof (for_each_world (exit_body env cfg) (exits_added cfg)
                    (exits_added_refl cfg) (exits_added_trans cfg)
                    (exit_body_exits_added env cfg)
                    (file_rows (BUY_LOG w)) ([], []) w) as Hloop.
      destruct (for_each (exit_body env cfg) (file_rows (BUY_LOG w)) ([], []) w)
        as [[[to_keep sell_msgs]|e] w1]; simpl in *; exact Hloop. }
    exists closed. split; [exact Hrows|].
    eapply Forall_impl; [|exact Hall]. intros x Hx. split; [exact Hx|].
    now apply (price_or_time_reason_truthy cfg).
Qed.

(** C1, on the code.  The ledger holds AAA and BBB; the download for AAA
    comes back empty and BBB is unchanged.  The exit phase ends normally,
    the rewritten ledger holds BBB only, and no exit record was written:
    AAA left the ledger without an ExitRecord.  The whole run ends the
    same way and reports that no trade took place. *)
Theorem exit_phase_drops_position_without_data :
  let env := market_env aaa_missing failing_ta [] (at_time day_us) in
  let w' := snd (exit_phase env default_cfg (world_with [aaa; bbb])) in
  let end_of_run := snd (run_bot env default_cfg (world_with [aaa; bbb])) in
  fst (exit_phase env default_cfg (world_with [aaa; bbb])) = Ok []
  /\ BUY_LOG w' = Some [bbb]
  /\ EXIT_LOG w' = None
  /\ events w' = [EvDownload "AAA" 30; EvDownload "BBB" 30]
  /\ fst (run_bot env default_cfg (world_with [aaa; bbb])) = Ok tt
  /\ BUY_LOG end_of_run = Some [bbb]
  /\ EXIT_LOG end_of_run = None
  /\ In (EvSendMail "📈 Daily Swing Trade Report" [NoTradesBlock]) (events end_of_run).
Proof. repeat split. vm_compute. tauto. Qed.

(** Whatever the ledger and the market, a position whose download is
    absent or empty is neither kept nor recorded as an exit. *)
Lemma exit_body_no_data (env : Env) (cfg : Config) (row : Position)
    (s : list Position * list Line) (w : World) (o : option (list Bar)) :
  download env (List.length (events w)) (ticker row) 30 = Ok o ->
  match o with Some (_ :: _) => False | _ => True end ->
  exit_body env cfg row s w = (Ok s, add_event (EvDownload (ticker row) 30) w).
Proof.
  intros Hd Ho. destruct s as [to_keep sell_msgs].
  unfold exit_body, bind, yf_download. rewrite Hd.
  destruct o as [[|b bars]|]; [reflexivity|contradiction|reflexivity].
Qed.

(** ** The two logging operations *)



(** ** The indicator scan *)

(** Adding the indicators is a computation on the frame alone. *)
Lemma add_indicators_world (env : Env) (df : pd.DataFrame) (w w0 : World) :
  add_indicators env df w = (fst (add_indicators env df w0), w).
Proof.
  unfold add_indicators.
  repeat (rewrite !bind_lift;
          match goal with
          | |- context [match ?r with Ok _ => _ | Raise _ => _ end] =>
              destruct r; [|reflexivity]
          end).
  reflexivity.
Qed.

(** The labels the scan reads on the latest row are columns of the frame
    it built. *)
Lemma add_indicators_columns (env : Env) (bars : list Bar) (w : World) (df : pd.DataFrame) :
  fst (add_indicators env (yf_frame bars) w) = Ok df ->
  pd.columns df
  = ["Open"; "High"; "Low"; "Close"; "Volume";
     "rsi"; "macd"; "macd_signal"; "bb_lower"; "bb_upper"; "adx"; "sma_200"].
Proof.
  unfold add_indicators.
  repeat (rewrite !bind_lift;
          match goal with
          | |- context [match ?r with Ok _ => _ | Raise _ => _ end] =>
              destruct r; [|discriminate]
          end).
  intros H. inversion H. reflexivity.
Qed.

(** The reasons of lines 67-80 pass the length test exactly when the
    five conditions hold, and are then the canonical list. *)
Lemma entry_reasons_signal (rsi macd macd_signal close bb_upper adx sma_200 : cell) :
  (if Nat.eqb
        (List.length (entry_reasons rsi macd macd_signal close bb_upper adx sma_200)) 5
   then Some (entry_reasons rsi macd macd_signal close bb_upper adx sma_200)
   else None)
  = if cell_lt rsi (Some 50%Q) && cell_gt macd macd_signal
       && cell_le close bb_upper && cell_gt adx (Some 15%Q)
       && cell_gt close sma_200
    then Some canonical_reasons else None.
Proof.
  unfold entry_reasons.
  destruct (cell_lt rsi (Some 50%Q)), (cell_gt macd macd_signal),
    (cell_le close bb_upper), (cell_gt adx (Some 15%Q)), (cell_gt close sma_200);
    reflexivity.
Qed.

(** What the body of the [try] does, by the answer of the provider. *)
Lemma scan_try_outcome (env : Env) (t : string) (w : World) :
  scan_try env t w = (scan_outcome env t w, add_event (EvDownload t 250) w).
Proof.
  unfold scan_try, scan_outcome, bind at 1, yf_download.
  set (w1 := add_event (EvDownload t 250) w).
  destruct (download env (List.length (events w)) t 250) as [[bars|]|e];
    try reflexivity.
  cbn [option_map]. cbv iota beta.
  destruct (pd.empty (yf_frame bars)); [reflexivity|].
  unfold bind at 1. rewrite (add_indicators_world env (yf_frame bars) w1 w).
  destruct (fst (add_indicators env (yf_frame bars) w)) as [df|e] eqn:Hdf;
    [|reflexivity].
  rewrite bind_lift.
  destruct (pd.last_row df) as [latest|e] eqn:Hlast; [|reflexivity].
  assert (pd.labels latest = pd.columns df) as Hlabels.
  { unfold pd.last_row in Hlast. destruct (rev (pd.rows df)); [discriminate|].
    now inversion Hlast. }
  unfold pd.at_label. rewrite Hlabels, (add_indicators_columns env bars w df Hdf).
  cbn [pd.has_label existsb String.eqb Ascii.eqb Bool.eqb orb].
  cbv beta iota delta [bind lift ret].
  unfold signal_of, five_conditions. now rewrite entry_reasons_signal.
Qed.

Lemma scan_indicators_outcome (env : Env) (t : string) (w : World) :
  scan_indicators env t w
  = match scan_outcome env t w with
    | Ok r => (Ok r, add_event (EvDownload t 250) w)
    | Raise e => (Ok (None, None), add_stderr e (add_event (EvDownload t 250) w))
    end.
Proof.
  unfold scan_indicators, try_except. rewrite scan_try_outcome.
  now destruct (scan_outcome env t w).
Qed.

(** An empty download stays empty through the indicators. *)
Lemma add_indicators_no_rows (env : Env) (w : World) (df : pd.DataFrame) :
  fst (add_indicators env (yf_frame []) w) = Ok df -> pd.rows df = [].
Proof.
  unfold add_indicators.
  repeat (rewrite !bind_lift;
          match goal with
          | |- context [match ?r with Ok _ => _ | Raise _ => _ end] =>
              destruct r; [|discriminate]
          end).
  intros H. inversion H. reflexivity.
Qed.

Lemma yf_frame_empty (bars : list Bar) :
  pd.empty (yf_frame bars) = true -> bars = [].
Proof. destruct bars; [reflexivity|discriminate]. Qed.

(** The reasons the scan computes are the signal of the latest bar, and
    there is no signal when the scan fails. *)
Lemma scan_outcome_signal (env : Env) (t : string) (w : World) :
  match scan_outcome env t w with
  | Ok (_, reasons) => reasons = signal_of (latest_snapshot env t w)
  | Raise _ => signal_of (latest_snapshot env t w) = None
  end.
Proof.
  unfold scan_outcome, latest_snapshot.
  destruct (download env (List.length (events w)) t 250) as [[bars|]|e];
    try reflexivity.
  destruct (pd.empty (yf_frame bars)) eqn:Hempty.
  - apply yf_frame_empty in Hempty. subst bars.
    destruct (fst (add_indicators env (yf_frame []) w)) as [df|e] eqn:Hdf;
      [|reflexivity].
    apply add_indicators_no_rows in Hdf. unfold pd.last_row. now rewrite Hdf.
  - destruct (fst (add_indicators env (yf_frame bars) w)) as [df|e];
      [|reflexivity].
    now destruct (pd.last_row df).
Qed.

(** C4.  The pipeline returns a reasons list exactly when the five entry
    conditions (RSI<50, MACD>Signal, Close<=BB_Upper, ADX>15,
    Close>SMA200) all hold on the latest bar; the list returned is the
    five labels in that order; and when the latest bar is missing or one
    condition fails, no signal is returned. *)
Theorem signal_iff_five_conditions (env : Env) (t : string) (w : World) :
  let reasons := signal_of (latest_snapshot env t w) in
  (exists df w', scan_indicators env t w = (Ok (df, reasons), w'))
  /\ (forall rs, reasons = Some rs <->
        rs = ["RSI<50"; "MACD>Signal"; "Close<=BB_Upper"; "ADX>15"; "Close>SMA200"]
        /\ exists latest, latest_snapshot env t w = Some latest
             /\ cell_lt (pd.values latest "rsi") (Some 50%Q) = true
             /\ cell_gt (pd.values latest "macd") (pd.values latest "macd_signal") = true
             /\ cell_le (pd.values latest "Close") (pd.values latest "bb_upper") = true
             /\ cell_gt (pd.values latest "adx") (Some 15%Q) = true
             /\ cell_gt (pd.values latest "Close") (pd.values latest "sma_200") = true)
  /\ (forall rs, reasons = Some rs -> List.length rs = 5%nat)
  /\ (forall rsi macd macd_signal close bb_upper adx sma_200,
        let collected := entry_reasons rsi macd macd_signal close bb_upper adx sma_200 in
        if cell_lt rsi (Some 50%Q) && cell_gt macd macd_signal
           && cell_le close bb_upper && cell_gt adx (Some 15%Q)
           && cell_gt close sma_200
        then collected = canonical_reasons
        else (List.length collected < 5)%nat).
Proof.
  intros reasons. subst reasons. repeat split.
  - rewrite scan_indicators_outcome.
    pose proof (scan_outcome_signal env t w) as H.
    destruct (scan_outcome env t w) as [[df rs]|e].
    + subst rs. eauto.
    + rewrite H. eauto.
  - unfold signal_of in H. destruct (latest_snapshot env t w); [|discriminate].
    destruct (five_conditions s); [|discriminate]. now inversion H.
  - unfold signal_of in H. destruct (latest_snapshot env t w) as [latest|];
      [|discriminate].
    destruct (five_conditions latest) eqn:Hfive; [|discriminate].
    exists latest. split; [reflexivity|]. unfold five_conditions in Hfive.
    repeat (apply andb_prop in Hfive; destruct Hfive as [Hfive ?]).
    now repeat split.
  - intros [-> [latest [-> [H1 [H2 [H3 [H4 H5]]]]]]].
    unfold signal_of, five_conditions. now rewrite H1, H2, H3, H4, H5.
  - intros rs H. unfold signal_of in H.
    destruct (latest_snapshot env t w); [|discriminate].
    destruct (five_conditions s); [|discriminate]. now inversion H.
  - intros rsi macd macd_signal close bb_upper adx sma_200. unfold entry_reasons.
    destruct (cell_lt rsi (Some 50%Q)), (cell_gt macd macd_signal),
      (cell_le close bb_upper), (cell_gt adx (Some 15%Q)), (cell_gt close sma_200);
      simpl; try reflexivity; lia.
Qed.

(** ABC closes at 25 under the band of 30 and over the average of 20,
    with momentum 40, trend 1 over 0 and strength 20: a signal with the
    five reasons.  With momentum 60 the same bar gives no signal. *)
Lemma signal_iff_five_conditions_witness :
  (exists df w',
     scan_indicators bull_env "ABC" fresh_world = (Ok (df, Some canonical_reasons), w'))
  /\ (exists df w', scan_indicators bear_env "ABC" fresh_world = (Ok (df, None), w')).
Proof.
  split.
  - exact (proj1 (signal_iff_five_conditions bull_env "ABC" fresh_world)).
  - exact (proj1 (signal_iff_five_conditions bear_env "ABC" fresh_world)).
Defined.

(** ** One turn of the entry loop *)

Lemma scan_indicators_world (env : Env) (t : string) (w : World) :
  let w2 := snd (scan_indicators env t w) in
  events w2 = events w ++ [EvDownload t 250]
  /\ BUY_LOG w2 = BUY_LOG w /\ EXIT_LOG w2 = EXIT_LOG w.
Proof.
  rewrite scan_indicators_outcome. now destruct (scan_outcome env t w).
Qed.

Lemma entry_body_cases (env : Env) (cfg : Config) (portfolio : list Position)
    (t : string) (balance : Q) (buy_msgs : list Line) (w : World) :
  entry_turn cfg portfolio t balance buy_msgs w (snd (scan_indicators env t w))
    (entry_body env cfg portfolio t (balance, buy_msgs) w).
Proof.
  remember (entry_body env cfg portfolio t (balance, buy_msgs) w) as turn eqn:Hturn.
  revert Hturn. unfold entry_body, entry_turn.
  destruct (pd.has_label t (map ticker portfolio)); [intros ->; left; now split|].
  right. split; [reflexivity|]. revert Hturn. unfold bind at 1.
  destruct (scan_indicators env t w) as [[[df reasons]|e] w2]; simpl snd;
    [|intros ->; left; eauto].
  destruct (truthy_list reasons); [|intros ->; right; left; reflexivity].
  rewrite bind_lift. destruct df as [df|]; [|intros ->; left; eauto].
  rewrite bind_lift.
  destruct (pd.getitem df "Close") as [close|e]; [|intros ->; left; eauto].
  rewrite bind_lift.
  destruct (pd.iloc_last close) as [last_close|e]; [|intros ->; left; eauto].
  rewrite bind_lift. destruct last_close as [p|]; [|intros ->; left; eauto].
  rewrite bind_lift. unfold int_floordiv.
  cbv zeta.
  destruct (Qeq_bool p 0) eqn:Hzero.
  { destruct (Qeq_bool (STARTING_CASH cfg * MAX_POSITION_SIZE cfg) 0);
      intros ->; left; eauto. }
  fold (sized_shares cfg p).
  destruct (0 <? sized_shares cfg p) eqn:Hpos;
    [|intros ->; right; left; reflexivity].
  destruct (Qle_bool (p * inject_Z (sized_shares cfg p)) balance) eqn:Hcost;
    [|intros ->; right; left; reflexivity].
  intros ->. right; right. cbn [andb].
  exists (mkPosition t p (strftime (clock env w2))
            (join match reasons with Some l => l | None => [] end)
            (sized_shares cfg p)).
  unfold cost, sized_shares; cbn [ticker price shares reason].
  repeat split.
  - now apply Qeq_bool_neq.
  - now apply Z.ltb_lt.
  - now apply Qle_bool_iff.
Qed.

(** ** The entry loop and the ledger *)

Lemma has_label_In (c : string) (l : list string) :
  pd.has_label c l = true <-> In c l.
Proof.
  unfold pd.has_label. rewrite existsb_exists. split.
  - intros [x [Hin Heq]]. apply String.eqb_eq in Heq. now subst.
  - intros Hin. exists c. split; [exact Hin|apply String.eqb_refl].
Qed.

Lemma has_label_not_In (c : string) (l : list string) :
  pd.has_label c l = false <-> ~ In c l.
Proof.
  destruct (pd.has_label c l) eqn:E.
  - split; [discriminate|]. intros H. exfalso. apply H. now apply has_label_In.
  - split; [|reflexivity]. intros _ Hin. apply has_label_In in Hin. congruence.
Qed.

Lemma entry_trace_skip (portfolio : list Position) (t : string)
    (rest : list string) (w w' : World) :
  entry_trace portfolio rest w w' -> entry_trace portfolio (t :: rest) w w'.
Proof.
  intros [scanned [bought [Hev [Hrows [Hexit [Hscan [Hbought Hnodup]]]]]]].
  exists scanned, bought. repeat split; try assumption.
  - right. now apply Hscan.
  - now apply Hscan.
  - inversion H; subst. now apply Hnodup.
  - inversion H; subst. now apply Hnodup.
Qed.

(** The loop continues after a scan of [t], with or without a buy. *)
Lemma entry_trace_scan (portfolio : list Position) (t : string)
    (rest : list string) (w w2 w' : World) (new : list Position) :
  pd.has_label t (map ticker portfolio) = false ->
  events w2 = events w ++ [EvDownload t 250] ->
  file_rows (BUY_LOG w2) = file_rows (BUY_LOG w) ++ new ->
  EXIT_LOG w2 = EXIT_LOG w ->
  new = [] \/ (exists row, new = [row] /\ ticker row = t) ->
  entry_trace portfolio rest w2 w' -> entry_trace portfolio (t :: rest) w w'.
Proof.
  intros Hnot Hev2 Hrows2 Hexit2 Hnew
    [scanned [bought [Hev [Hrows [Hexit [Hscan [Hbought Hnodup]]]]]]].
  exists (t :: scanned), (new ++ bought). repeat split.
  - rewrite Hev, Hev2, <- app_assoc. reflexivity.
  - rewrite Hrows, Hrows2, <- app_assoc. reflexivity.
  - congruence.
  - destruct H as [<- | H]; [now left|right; now apply Hscan].
  - destruct H as [<- | H]; [exact Hnot|now apply Hscan].
  - intros t' Hin. rewrite map_app in Hin. apply in_app_or in Hin.
    destruct Hin as [Hin | Hin].
    + destruct Hnew as [-> | [row [-> <-]]]; [contradiction|].
      destruct Hin as [<- | []]. now left.
    + right. now apply Hbought.
  - inversion H; subst. constructor.
    + intros Hin. apply H2. now apply Hscan.
    + now apply Hnodup.
  - inversion H; subst. destruct (Hnodup H3) as [_ Hb].
    destruct Hnew as [-> | [row [-> Hrow]]]; [exact Hb|].
    simpl. constructor; [|exact Hb].
    intros Hin. apply H2. rewrite Hrow in Hin. apply Hscan. now apply Hbought.
Qed.

Lemma entry_trace_stop (portfolio : list Position) (t : string)
    (rest : list string) (w w2 : World) :
  pd.has_label t (map ticker portfolio) = false ->
  events w2 = events w ++ [EvDownload t 250] ->
  BUY_LOG w2 = BUY_LOG w -> EXIT_LOG w2 = EXIT_LOG w ->
  entry_trace portfolio (t :: rest) w w2.
Proof.
  intros Hnot Hev Hrows Hexit. exists [t], []. repeat split.
  - exact Hev.
  - now rewrite Hrows, app_nil_r.
  - exact Hexit.
  - destruct H as [<- | []]. now left.
  - destruct H as [<- | []]. exact Hnot.
  - intros t' [].
  - constructor; [intros []|constructor].
  - constructor.
Qed.

Lemma entry_trace_nil (portfolio : list Position) (w : World) :
  entry_trace portfolio [] w w.
Proof.
  exists [], []. repeat split; try (now rewrite app_nil_r); try constructor;
    try (intros t []); try (intros []); intros; contradiction.
Qed.

Lemma entry_loop_trace (env : Env) (cfg : Config) (portfolio : list Position)
    (tickers : list string) (s : Q * list Line) (w : World) :
  entry_trace portfolio tickers w
    (snd (for_each (entry_body env cfg portfolio) tickers s w)).
Proof.
  revert s w. induction tickers as [|t rest IH]; intros [balance buy_msgs] w.
  - apply entry_trace_nil.
  - cbn [for_each]. unfold bind.
    destruct (scan_indicators_world env t w) as [Hev [Hbuy Hexit]].
    destruct (entry_body_cases env cfg portfolio t balance buy_msgs w)
      as [[Hin ->] | [Hnot [[e ->] | [-> | [row [Ht [_ [_ [_ [_ ->]]]]]]]]]].
    + apply entry_trace_skip, IH.
    + simpl. now apply entry_trace_stop.
    + apply (entry_trace_scan portfolio t rest w
               (snd (scan_indicators env t w)) _ [] Hnot Hev);
        [now rewrite Hbuy, app_nil_r | exact Hexit | now left | apply IH].
    + apply (entry_trace_scan portfolio t rest w
               (set_BUY_LOG (append_row (BUY_LOG (snd (scan_indicators env t w))) row)
                  (snd (scan_indicators env t w))) _ [row] Hnot Hev);
        [simpl; now rewrite Hbuy | exact Hexit | right; eauto | apply IH].
Qed.

(** ** The ticker source *)

Lemma In_insert_sorted (x y : string) (xs : list string) :
  In y (insert_sorted x xs) <-> y = x \/ In y xs.
Proof.
  induction xs as [|z zs IH]; simpl.
  - intuition.
  - destruct (String.leb x z); simpl; [intuition|]. rewrite IH. intuition.
Qed.

Lemma NoDup_insert_sorted (x : string) (xs : list string) :
  ~ In x xs -> NoDup xs -> NoDup (insert_sorted x xs).
Proof.
  induction xs as [|z zs IH]; simpl; intros Hnot Hnd.
  - constructor; [intros []|constructor].
  - destruct (String.leb x z).
    + constructor; assumption.
    + inversion Hnd; subst. constructor.
      * rewrite In_insert_sorted. intros [-> | Hin]; [apply Hnot; now left|contradiction].
      * apply IH; [intros Hin; apply Hnot; now right|assumption].
Qed.

Lemma In_sorted (y : string) (xs : list string) : In y (sorted xs) <-> In y xs.
Proof.
  induction xs as [|x xs IH]; simpl; [reflexivity|].
  rewrite In_insert_sorted, IH. intuition.
Qed.

Lemma NoDup_sorted (xs : list string) : NoDup xs -> NoDup (sorted xs).
Proof.
  induction xs as [|x xs IH]; simpl; intros Hnd; [constructor|].
  inversion Hnd; subst. apply NoDup_insert_sorted; [|now apply IH].
  now rewrite In_sorted.
Qed.

Lemma HdRel_insert_sorted (x y : string) (ys : list string) :
  String.leb y x = true ->
  HdRel (fun a b => String.leb a b = true) y ys ->
  HdRel (fun a b => String.leb a b = true) y (insert_sorted x ys).
Proof.
  intros Hyx Hhd. destruct ys as [|z zs]; simpl.
  - now constructor.
  - destruct (String.leb x z); constructor; [exact Hyx|now inversion Hhd].
Qed.

Lemma Sorted_insert_sorted (x : string) (xs : list string) :
  Sorted (fun a b => String.leb a b = true) xs ->
  Sorted (fun a b => String.leb a b = true) (insert_sorted x xs).
Proof.
  induction 1 as [|y ys Hsorted IH Hhd]; simpl.
  - repeat constructor.
  - destruct (String.leb x y) eqn:Hxy.
    + constructor; [now constructor|now constructor].
    + constructor; [exact IH|]. apply HdRel_insert_sorted; [|exact Hhd].
      destruct (String.leb_total x y) as [H | H]; [congruence|exact H].
Qed.

(** [sorted] returns its argument in ascending order. *)
Lemma Sorted_sorted (xs : list string) :
  Sorted (fun a b => String.leb a b = true) (sorted xs).
Proof.
  induction xs as [|x xs IH]; simpl; [constructor|].
  now apply Sorted_insert_sorted.
Qed.

(** [get_sp_list] never raises, asks for the two pages, leaves the files
    alone and returns a list in ascending order without repetition. *)
Lemma get_sp_list_outcome (env : Env) (w : World) :
  exists tickers w',
    get_sp_list env w = (Ok tickers, w')
    /\ NoDup tickers
    /\ events w' = events w ++ map EvReadHtml (map snd urls)
    /\ BUY_LOG w' = BUY_LOG w /\ EXIT_LOG w' = EXIT_LOG w.
Proof.
  unfold get_sp_list, bind, urls. cbn [map snd for_each].
  unfold bind, try_except, pd_read_html, ret.
  destruct (read_html env (List.length (events w)) _) as [tables1|e1];
    cbn [fst snd];
    match goal with
    | |- context [read_html env ?n ?u] => destruct (read_html env n u) as [tables2|e2]
    end;
    eexists; eexists;
    (split; [reflexivity|]);
    (split; [apply NoDup_sorted, NoDup_nodup|]);
    simpl; rewrite <- app_assoc; repeat split.
Qed.

(** The tickers of a pass come in ascending order: the loop visits them
    in the same order on every run over the same pages. *)
Lemma get_sp_list_sorted (env : Env) (w : World) (tickers : list string) (w' : World) :
  get_sp_list env w = (Ok tickers, w') ->
  Sorted (fun a b => String.leb a b = true) tickers.
Proof.
  unfold get_sp_list, bind. intros H.
  destruct (for_each _ (map snd urls) [] w) as [[raw|e] w1]; [|discriminate].
  inversion H; subst. apply Sorted_sorted.
Qed.

(** The entry phase, as the loop it runs after the two requests of
    [get_sp_list]. *)
Lemma entry_phase_loop (env : Env) (cfg : Config) (w : World) :
  exists tickers w1,
    NoDup tickers
    /\ events w1 = events w ++ map EvReadHtml (map snd urls)
    /\ BUY_LOG w1 = BUY_LOG w /\ EXIT_LOG w1 = EXIT_LOG w
    /\ entry_phase env cfg w
       = for_each (entry_body env cfg (file_rows (BUY_LOG w))) tickers
           ((STARTING_CASH cfg - invested (file_rows (BUY_LOG w)))%Q, []) w1.
Proof.
  destruct (get_sp_list_outcome env w) as [tickers [w1 [Hget [Hnd [Hev [Hbuy Hexit]]]]]].
  exists tickers, w1. repeat split; try assumption.
  unfold entry_phase, bind, load_portfolio. now rewrite Hget.
Qed.

(** What the entry phase asks of the world and writes to the ledger. *)
Lemma entry_phase_trace (env : Env) (cfg : Config) (w : World) :
  let portfolio := file_rows (BUY_LOG w) in
  let w' := snd (entry_phase env cfg w) in
  exists scanned bought,
    events w'
    = events w ++ map EvReadHtml (map snd urls)
        ++ map (fun t => EvDownload t 250) scanned
    /\ file_rows (BUY_LOG w') = portfolio ++ bought
    /\ EXIT_LOG w' = EXIT_LOG w
    /\ (forall t, In t scanned -> ~ In t (map ticker portfolio))
    /\ (forall t, In t (map ticker bought) -> In t scanned)
    /\ NoDup scanned
    /\ NoDup (map ticker bought).
Proof.
  intros portfolio w'.
  destruct (entry_phase_loop env cfg w)
    as [tickers [w1 [Hnd [Hev1 [Hbuy1 [Hexit1 Hphase]]]]]].
  pose proof (entry_loop_trace env cfg portfolio tickers
                ((STARTING_CASH cfg - invested portfolio)%Q, []) w1) as Htrace.
  fold portfolio in Hphase. rewrite <- Hphase in Htrace. fold w' in Htrace.
  destruct Htrace as [scanned [bought [Hev [Hrows [Hexit [Hscan [Hbought Hnodup]]]]]]].
  destruct (Hnodup Hnd) as [Hnd_scanned Hnd_bought].
  exists scanned, bought. repeat split; try assumption.
  - rewrite Hev, Hev1, <- app_assoc. reflexivity.
  - rewrite Hrows, Hbuy1. reflexivity.
  - congruence.
  - intros t Hs. destruct (Hscan t Hs) as [_ Hnot]. now apply has_label_not_In.
Qed.

(** C7.  A ticker with a position in the loaded portfolio is skipped by
    the entry loop before the indicator pipeline runs: its turn changes
    nothing, the entry phase makes no request for it, and buys nothing
    for it.  The phase buys at most one position per ticker, so a ledger
    with one position per ticker keeps that property. *)
Theorem open_ticker_not_rescanned (env : Env) (cfg : Config) (w : World) :
  let portfolio := file_rows (BUY_LOG w) in
  let w' := snd (entry_phase env cfg w) in
  (forall t s w0, In t (map ticker portfolio) ->
     entry_body env cfg portfolio t s w0 = (Ok s, w0))
  /\ exists scanned bought,
       events w'
       = events w ++ map EvReadHtml (map snd urls)
           ++ map (fun t => EvDownload t 250) scanned
       /\ file_rows (BUY_LOG w') = portfolio ++ bought
       /\ (forall t, In t (map ticker portfolio) ->
             ~ In t scanned /\ ~ In t (map ticker bought))
       /\ NoDup scanned
       /\ NoDup (map ticker bought)
       /\ (NoDup (map ticker portfolio) ->
             NoDup (map ticker (file_rows (BUY_LOG w')))).
Proof.
  intros portfolio w'. split.
  - intros t [balance buy_msgs] w0 Hin. unfold entry_body.
    apply has_label_In in Hin. now rewrite Hin.
  - destruct (entry_phase_trace env cfg w)
      as [scanned [bought [Hev [Hrows [_ [Hskip [Hbought [Hnd_s Hnd_b]]]]]]]].
    fold portfolio in Hrows, Hskip. fold w' in Hev, Hrows.
    exists scanned, bought. repeat split; try assumption.
    + intros Hs. now apply (Hskip t).
    + intros Hb. apply (Hskip t); [now apply Hbought|assumption].
    + intros Hnd_portfolio. rewrite Hrows, map_app.
      apply NoDup_app; try assumption.
      intros t Hin Hb. apply (Hskip t); [now apply Hbought|assumption].
Qed.

(** ABC is in the ledger and signals an entry again: its turn does
    nothing, and the pass asks for XYZ only and buys XYZ only. *)
Lemma open_ticker_not_rescanned_witness :
  entry_body bull_env default_cfg [abc] "ABC" (9500%Q, []) (world_with [abc])
  = (Ok (9500%Q, []), world_with [abc])
  /\ events (snd (entry_phase bull_env default_cfg (world_with [abc])))
     = map EvReadHtml (map snd urls) ++ [EvDownload "XYZ" 250]
  /\ map ticker (file_rows (BUY_LOG (snd (entry_phase bull_env default_cfg (world_with [abc])))))
     = ["ABC"; "XYZ"].
Proof.
  split; [|split; vm_compute; reflexivity].
  apply (proj1 (open_ticker_not_rescanned bull_env default_cfg (world_with [abc]))).
  now left.
Defined.

(** A download that comes back for ABC with one bar, and an indicator
    library that fails on it. *)
Lemma scan_faults_are_swallowed_setting :
  scan_try (market_env (fun _ => Some [flat_bar 25]) failing_ta [] (at_time 0))
    "ABC" fresh_world
  = (Raise (ExternalError 1), add_event (EvDownload "ABC" 250) fresh_world).
Proof. reflexivity. Qed.

(** C8.  [scan_indicators] never raises: it makes one request, leaves
    the two files alone, and answers "no frame, no signal" when the
    series is absent or empty and when anything in its body raises; the
    exception is then printed and goes no further.  The caller buys
    nothing on that answer and moves on, and the entry phase asks for
    each ticker at most once. *)
Theorem scan_faults_are_swallowed (env : Env) (cfg : Config) (t : string) (w : World) :
  let w1 := add_event (EvDownload t 250) w in
  (exists r w', scan_indicators env t w = (Ok r, w')
     /\ events w' = events w ++ [EvDownload t 250]
     /\ BUY_LOG w' = BUY_LOG w /\ EXIT_LOG w' = EXIT_LOG w)
  /\ (forall o, download env (List.length (events w)) t 250 = Ok o ->
        match o with Some (_ :: _) => False | _ => True end ->
        scan_indicators env t w = (Ok (None, None), w1))
  /\ (forall e w2, scan_try env t w = (Raise e, w2) ->
        scan_indicators env t w = (Ok (None, None), add_stderr e w1))
  /\ (forall portfolio s df,
        pd.has_label t (map ticker portfolio) = false ->
        fst (scan_indicators env t w) = Ok (df, None) ->
        entry_body env cfg portfolio t s w = (Ok s, snd (scan_indicators env t w)))
  /\ (exists scanned,
        events (snd (entry_phase env cfg w))
        = events w ++ map EvReadHtml (map snd urls)
            ++ map (fun t => EvDownload t 250) scanned
        /\ NoDup scanned).
Proof.
  intros w1. repeat split.
  - pose proof (scan_indicators_world env t w) as [Hev [Hbuy Hexit]].
    destruct (scan_indicators env t w) as [[r|e] w'] eqn:Hscan.
    + exists r, w'. now repeat split.
    + rewrite scan_indicators_outcome in Hscan.
      destruct (scan_outcome env t w); discriminate.
  - intros o Hd Ho. rewrite scan_indicators_outcome. unfold scan_outcome.
    rewrite Hd. destruct o as [[|b bars]|]; [reflexivity|contradiction|reflexivity].
  - intros e w2 Htry. rewrite scan_try_outcome in Htry.
    rewrite scan_indicators_outcome. inversion Htry as [[Hout Hw]].
    now rewrite Hout.
  - intros portfolio [balance buy_msgs] df Hnot Hscan. unfold entry_body.
    rewrite Hnot. unfold bind at 1.
    destruct (scan_indicators env t w) as [[[df' reasons]|e] w2]; simpl in *;
      [|discriminate].
    inversion Hscan; subst. reflexivity.
  - destruct (entry_phase_trace env cfg w)
      as [scanned [bought [Hev [_ [_ [_ [_ [Hnd _]]]]]]]].
    exists scanned. now split.
Qed.

(** The failing indicator library on ABC: the fault is printed and the
    scan answers "no signal". *)
Lemma scan_faults_are_swallowed_witness :
  scan_indicators (market_env (fun _ => Some [flat_bar 25]) failing_ta [] (at_time 0))
    "ABC" fresh_world
  = (Ok (None, None),
     add_stderr (ExternalError 1) (add_event (EvDownload "ABC" 250) fresh_world)).
Proof.
  exact (proj1 (proj2 (proj2
           (scan_faults_are_swallowed
              (market_env (fun _ => Some [flat_bar 25]) failing_ta [] (at_time 0))
              default_cfg "ABC" fresh_world)))
           (ExternalError 1) (add_event (EvDownload "ABC" 250) fresh_world)
           scan_faults_are_swallowed_setting).
Defined.

(** ** Sizing and the balance *)

Lemma last_row_item (df : pd.DataFrame) (latest : pd.Series) (c : string) :
  pd.last_row df = Ok latest ->
  pd.has_label c (pd.columns df) = true ->
  exists col, pd.getitem df c = Ok col /\ pd.iloc_last col = Ok (pd.values latest c).
Proof.
  unfold pd.last_row, pd.getitem, pd.iloc_last. intros Hlast ->.
  eexists. split; [reflexivity|]. rewrite <- map_rev.
  destruct (rev (pd.rows df)) as [|r rs]; [discriminate|].
  inversion Hlast. reflexivity.
Qed.

(** A latest bar on which the five conditions hold: the scan returns the
    frame and the canonical reasons, and the price the caller reads is
    the close of that bar. *)
Lemma scan_indicators_signal (env : Env) (t : string) (w : World) (latest : pd.Series) :
  latest_snapshot env t w = Some latest ->
  five_conditions latest = true ->
  exists df col,
    scan_indicators env t w
    = (Ok (Some df, Some canonical_reasons), add_event (EvDownload t 250) w)
    /\ pd.getitem df "Close" = Ok col
    /\ pd.iloc_last col = Ok (pd.values latest "Close").
Proof.
  intros Hlatest Hfive. rewrite scan_indicators_outcome.
  unfold latest_snapshot, scan_outcome in *.
  destruct (download env (List.length (events w)) t 250) as [[bars|]|e];
    try discriminate.
  destruct (fst (add_indicators env (yf_frame bars) w)) as [df|e] eqn:Hdf;
    [|discriminate].
  destruct (pd.last_row df) as [row|e] eqn:Hlast; [|discriminate].
  inversion Hlatest; subst row.
  destruct (pd.empty (yf_frame bars)) eqn:Hempty.
  - apply yf_frame_empty in Hempty. subst bars.
    apply add_indicators_no_rows in Hdf. unfold pd.last_row in Hlast.
    rewrite Hdf in Hlast. discriminate.
  - destruct (last_row_item df latest "Close" Hlast) as [col [Hcol Hclose]].
    { now rewrite (add_indicators_columns env bars w df Hdf). }
    exists df, col. unfold signal_of. rewrite Hfive. now repeat split.
Qed.




Lemma for_each_invariant {A S : Type} (body : A -> S -> M S) (I : S -> World -> Prop) :
  (forall x s w s' w', I s w -> body x s w = (Ok s', w') -> I s' w') ->
  forall xs s w s' w', I s w -> for_each body xs s w = (Ok s', w') -> I s' w'.
Proof.
  intros Hbody xs. induction xs as [|x xs IH]; intros s w s' w' Hs Hloop.
  - inversion Hloop; now subst.
  - cbn [for_each] in Hloop. unfold bind in Hloop.
    destruct (body x s w) as [[s1|e] w1] eqn:Hx; [|discriminate].
    eapply IH; [|exact Hloop]. eapply Hbody; eassumption.
Qed.




Lemma Qeq_bool_false (x y : Q) : ~ (x == y)%Q -> Qeq_bool x y = false.
Proof.
  intros H. destruct (Qeq_bool x y) eqn:E; [|reflexivity].
  elim H. now apply Qeq_bool_eq.
Qed.

(** C5.  On an entry signal at price [p] with balance [balance], the
    script computes [allocation = startingCash * maxPositionFraction] and
    [shares = floor(allocation / p)], and buys exactly when [shares > 0]
    and [p * shares <= balance]: the position has that many shares, the
    balance is reduced by its cost; otherwise nothing changes.  (A price
    of zero makes the division fail and the turn raises.)  No position
    is ever written with [shares <= 0] or a cost above the balance.  With
    10000 in cash and a fraction of 0.05 a price of 25 gives an
    allocation of 500 and 20 shares, which a balance of 400 rejects. *)
Theorem sizing_rule (env : Env) (cfg : Config) (portfolio : list Position)
    (t : string) (balance : Q) (buy_msgs : list Line) (w : World)
    (latest : pd.Series) (p : Q) :
  pd.has_label t (map ticker portfolio) = false ->
  latest_snapshot env t w = Some latest ->
  five_conditions latest = true ->
  pd.values latest "Close" = Some p ->
  let w2 := add_event (EvDownload t 250) w in
  let allocation := (STARTING_CASH cfg * MAX_POSITION_SIZE cfg)%Q in
  let n := Qfloor (allocation / p) in
  let why := join canonical_reasons in
  let row := mkPosition t p (strftime (clock env w2)) why n in
  let turn := entry_body env cfg portfolio t (balance, buy_msgs) w in
  (~ (p == 0)%Q ->
     turn = if (0 <? n) && Qle_bool (p * inject_Z n) balance
            then (Ok ((balance - p * inject_Z n)%Q, buy_msgs ++ [BuyLine t p why]),
                  set_BUY_LOG (append_row (BUY_LOG w2) row) w2)
            else (Ok (balance, buy_msgs), w2))
  /\ ((p == 0)%Q -> exists e, turn = (Raise e, w2))
  /\ (BUY_LOG (snd turn) = BUY_LOG w
      \/ exists row', file_rows (BUY_LOG (snd turn)) = file_rows (BUY_LOG w) ++ [row']
           /\ 0 < shares row' /\ (price row' * inject_Z (shares row') <= balance)%Q
           /\ shares row' = Qfloor (allocation / price row'))
  /\ ((STARTING_CASH default_cfg * MAX_POSITION_SIZE default_cfg == 500)%Q
      /\ Qfloor (500 / 25) = 20
      /\ (0 <? 20) && Qle_bool (25 * inject_Z 20) 400 = false).
Proof.
  intros Hnot Hlatest Hfive Hclose w2 allocation n why row turn.
  destruct (scan_indicators_signal env t w latest Hlatest Hfive)
    as [df [col [Hscan [Hcol Hlast]]]].
  assert (turn
          = bind (lift (int_floordiv allocation p))
              (fun n =>
                 if (0 <? n) && Qle_bool (p * inject_Z n) balance
                 then bind (log_buy env t p why n)
                        (fun _ => ret ((balance - p * inject_Z n)%Q,
                                       buy_msgs ++ [BuyLine t p why]))
                 else ret (balance, buy_msgs)) w2) as Hturn.
  { subst turn. unfold entry_body. rewrite Hnot. unfold bind at 1.
    rewrite Hscan. cbn [truthy_list canonical_reasons].
    rewrite !bind_lift, Hcol. rewrite !bind_lift, Hlast, Hclose.
    rewrite !bind_lift. reflexivity. }
  repeat split.
  - intros Hp. rewrite Hturn, bind_lift. unfold int_floordiv.
    rewrite (Qeq_bool_false p 0 Hp). fold n.
    destruct ((0 <? n) && Qle_bool (p * inject_Z n) balance); reflexivity.
  - intros Hp. rewrite Hturn, bind_lift. unfold int_floordiv.
    rewrite (Qeq_eq_bool p 0 Hp). destruct (Qeq_bool allocation 0); eauto.
  - destruct (scan_indicators_world env t w) as [_ [Hbuy _]].
    destruct (entry_body_cases env cfg portfolio t balance buy_msgs w)
      as [[_ H] | [_ [[e H] | [H | [r [_ [_ [Hn [Hpos [Hcost H]]]]]]]]]];
      fold turn in H; rewrite H; simpl; try (left; congruence).
    right. exists r. rewrite Hbuy. now repeat split.
Qed.

(** Scenario D as a run: the ledger leaves 400, ABC signals an entry at
    25; the sizing gives 20 shares for 500 and the buy is rejected. *)
Lemma sizing_rule_witness :
  entry_body bull_env default_cfg [held 9600] "ABC" (400%Q, []) (world_with [held 9600])
  = (Ok (400%Q, []), add_event (EvDownload "ABC" 250) (world_with [held 9600])).
Proof.
  refine (proj1 (sizing_rule bull_env default_cfg [held 9600] "ABC" 400 []
                   (world_with [held 9600])
                   (pd.mkSeries
                      ["Open"; "High"; "Low"; "Close"; "Volume";
                       "rsi"; "macd"; "macd_signal"; "bb_lower"; "bb_upper";
                       "adx"; "sma_200"]
                      (hd (fun _ => NaN)
                         (match fst (add_indicators bull_env (yf_frame [flat_bar 25])
                                       fresh_world) with
                          | Ok df => pd.rows df
                          | Raise _ => []
                          end)))
                   25 _ _ _ _) _).
  - reflexivity.
  - reflexivity.
  - reflexivity.
  - reflexivity.
  - discriminate.
Defined.

(** ** A whole run *)

(** A first run on an empty ledger where ABC and XYZ both signal an entry
    at 25: both are bought, in ticker order, both are kept by the exit
    phase of the same run, and the report lists the two buys. *)
Example run_bot_first_run :
  let w' := snd (run_bot bull_env default_cfg fresh_world) in
  fst (run_bot bull_env default_cfg fresh_world) = Ok tt
  /\ map ticker (file_rows (BUY_LOG w')) = ["ABC"; "XYZ"]
  /\ map shares (file_rows (BUY_LOG w')) = [20; 20]
  /\ EXIT_LOG w' = None
  /\ events w'
     = map EvReadHtml (map snd urls)
       ++ [EvDownload "ABC" 250; EvDownload "XYZ" 250;
           EvDownload "ABC" 30; EvDownload "XYZ" 30;
           EvSendMail "📈 Daily Swing Trade Report"
             [BuysBlock [BuyLine "ABC" 25 (join canonical_reasons);
                         BuyLine "XYZ" 25 (join canonical_reasons)]]].
Proof. repeat split. Qed.

(** * Further properties of the script *)

(** ** [get_sp_list] *)

Lemma events_add_event_length (ev : Event) (w : World) :
  List.length (events (add_event ev w)) = S (List.length (events w)).
Proof. simpl. rewrite length_app. simpl. apply Nat.add_1_r. Qed.

(** The value of [get_sp_list]: the symbols of the two pages, in the
    order of the requests, normalised, without repetition, sorted. *)
Lemma get_sp_list_value (env : Env) (w : World) :
  let n := List.length (events w) in
  let u1 := nth 0 (map snd urls) EmptyString in
  let u2 := nth 1 (map snd urls) EmptyString in
  get_sp_list env w
  = (Ok (sorted (set (map replace_dot
                        (page_symbols env n u1 ++ page_symbols env (S n) u2)))),
     add_event (EvReadHtml u2) (add_event (EvReadHtml u1) w)).
Proof.
  intros n u1 u2. subst n u1 u2.
  unfold get_sp_list, bind, urls. cbn [map snd for_each nth].
  unfold bind, try_except, pd_read_html, ret, page_symbols.
  rewrite <- (events_add_event_length
                (EvReadHtml "https://en.wikipedia.org/wiki/List_of_S%26P_400_companies") w).
  destruct (read_html env (List.length (events w)) _) as [tables1|e1];
    cbn [fst snd];
    match goal with
    | |- context [read_html env ?n ?u] => destruct (read_html env n u) as [tables2|e2]
    end;
    cbn [app]; rewrite ?app_nil_r; reflexivity.
Qed.



Lemma replace_dot_has_no_dot (t : string) : has_dot (replace_dot t) = false.
Proof.
  induction t as [|c t IH]; simpl; [reflexivity|].
  rewrite IH, orb_false_r.
  destruct (Ascii.eqb c ".") eqn:Hc; [reflexivity|exact Hc].
Qed.

Lemma replace_dot_length (t : string) :
  String.length (replace_dot t) = String.length t.
Proof. induction t as [|c t IH]; simpl; congruence. Qed.

Lemma replace_dot_fixed (t : string) : has_dot t = false -> replace_dot t = t.
Proof.
  induction t as [|c t IH]; simpl; [reflexivity|].
  intros H. apply orb_false_iff in H. destruct H as [Hc Ht].
  now rewrite Hc, IH.
Qed.

(** X3.  No ticker returned by [get_sp_list] contains a dot: every "."
    of a symbol has become "-", the other characters and the length of
    the symbol are unchanged, and two symbols that differ only by "." for
    "-" come back as one ticker. *)
Theorem get_sp_list_normalised (env : Env) (w : World) :
  (exists tickers w',
     get_sp_list env w = (Ok tickers, w')
     /\ forall t, In t tickers -> has_dot t = false)
  /\ (forall symbol,
        String.length (replace_dot symbol) = String.length symbol
        /\ (has_dot symbol = false -> replace_dot symbol = symbol)
        /\ replace_dot (replace_dot symbol) = replace_dot symbol)
  /\ sorted (set (map replace_dot ["BRK.B"; "BRK-B"])) = ["BRK-B"].
Proof.
  split; [|split; [|reflexivity]].
  - eexists. eexists. split; [apply get_sp_list_value|].
    intros t Hin. rewrite In_sorted in Hin. unfold set in Hin.
    rewrite nodup_In, in_map_iff in Hin. destruct Hin as [symbol [<- _]].
    apply replace_dot_has_no_dot.
  - intros symbol. split; [apply replace_dot_length|]. split.
    + apply replace_dot_fixed.
    + apply replace_dot_fixed, replace_dot_has_no_dot.
Qed.

(** X4.  Of the tables of a page, only the first with a "Symbol" column
    is read ([break]): tables before it without that column are passed
    over, tables after it are ignored even when they have one; a page
    with no such table gives no symbol. *)
Theorem symbol_column_first_table (before after : list HtmlTable) (table : HtmlTable) :
  Forall (fun x => pd.has_label "Symbol" (tcolumns x) = false) before ->
  pd.has_label "Symbol" (tcolumns table) = true ->
  symbol_column (before ++ table :: after) = symbols table
  /\ symbol_column before = [].
Proof.
  intros Hbefore Htable. induction Hbefore as [|x before Hx _ IH]; simpl.
  - now rewrite Htable.
  - now rewrite Hx.
Qed.

(** A page with a table of contents, the constituents and a table of
    changes that also has a "Symbol" column. *)
Lemma symbol_column_first_table_witness :
  symbol_column
    ([mkHtmlTable ["Contents"] ["x"]]
       ++ mkHtmlTable ["Symbol"; "Security"] ["AAA"; "BBB"]
       :: [mkHtmlTable ["Date"; "Symbol"] ["OLD"]])
  = ["AAA"; "BBB"]
  /\ symbol_column [mkHtmlTable ["Contents"] ["x"]] = [].
Proof.
  apply (symbol_column_first_table
           [mkHtmlTable ["Contents"] ["x"]]
           [mkHtmlTable ["Date"; "Symbol"] ["OLD"]]
           (mkHtmlTable ["Symbol"; "Security"] ["AAA"; "BBB"])).
  - repeat constructor.
  - reflexivity.
Defined.

(** ** The exit loop, row by row *)

Lemma trend_reversal_on_download (bars : list Bar) :
  trend_reversal (yf_frame bars) = Ok false.
Proof. reflexivity. Qed.

Lemma first_match_price_or_time (cfg : Config) (row : Position) (close : cell)
    (today : Z) (why : string) :
  first_match cfg row close today false = Some why -> price_or_time_reason cfg why.
Proof.
  unfold first_match, rule_priority, price_or_time_reason. cbn [find rule_holds].
  destruct (cell_ge close _); [intros H; inversion H; auto|].
  destruct (cell_le close _); [intros H; inversion H; auto|].
  destruct (held_too_long cfg row today); [intros H; inversion H; auto|].
  discriminate.
Qed.

(** What a turn of the exit loop returns and leaves, given the fate of
    its row. *)
Lemma exit_body_verdict (env : Env) (cfg : Config) (row : Position)
    (to_keep : list Position) (sell_msgs : list Line) (w : World) :
  let w1 := add_event (EvDownload (ticker row) 30) w in
  exit_body env cfg row (to_keep, sell_msgs) w
  = match row_verdict env cfg (List.length (events w)) row with
    | Raise e => (Raise e, w1)
    | Ok Dropped => (Ok (to_keep, sell_msgs), w1)
    | Ok Kept => (Ok (to_keep ++ [row], sell_msgs), w1)
    | Ok (Closed close why) =>
        (Ok (to_keep, sell_msgs ++ [SellLine (ticker row) close why]),
         set_EXIT_LOG
           (append_row (EXIT_LOG w1)
              (mkExitRecord (ticker row) close (strftime (clock env w1)) why))
           w1)
    end.
Proof.
  intros w1. unfold row_verdict.
  destruct (download env (List.length (events w)) (ticker row) 30)
    as [[bars|]|e] eqn:Hd.
  - destruct (rev bars) as [|b front] eqn:Hrev.
    + assert (bars = []) as -> by (now rewrite <- (rev_involutive bars), Hrev).
      now apply (exit_body_no_data env cfg row _ w (Some [])).
    + assert (bars = rev front ++ [b]) as ->
        by (now rewrite <- (rev_involutive bars), Hrev).
      destruct (pd.last_row (yf_frame (rev front ++ [b]))) as [latest|e] eqn:Hlast.
      * rewrite (exit_body_decision env cfg row to_keep sell_msgs w
                   (rev front) b latest Hd Hlast).
        fold w1.
        rewrite (exit_rule_trend env cfg row _ latest w1 (bar_close b) false
                   (download_latest_close (rev front) b latest Hlast)
                   (trend_reversal_on_download _)).
        cbn [fst]. unfold clock at 1. unfold w1 at 1.
        rewrite events_add_event_length.
        now destruct (first_match cfg row (bar_close b) _ false).
      * exfalso. unfold pd.last_row, yf_frame in Hlast. cbn [pd.rows] in Hlast.
        rewrite map_app in Hlast. cbn [map] in Hlast. rewrite rev_unit in Hlast.
        discriminate.
  - now apply (exit_body_no_data env cfg row _ w None).
  - unfold exit_body, bind, yf_download. now rewrite Hd.
Qed.

Lemma events_recorded_length (ev : Event) (f : option (list ExitRecord)) (w : World) :
  List.length (events (set_EXIT_LOG f (add_event ev w))) = S (List.length (events w)).
Proof. apply events_add_event_length. Qed.

Lemma kept_closed_length (l : list (Position * Fate)) :
  (List.length (kept_rows l) + List.length (closed_rows l) <= List.length l)%nat.
Proof.
  induction l as [|[r f] l IH]; simpl; [lia|].
  unfold kept_rows, closed_rows in *. simpl.
  rewrite !length_app. destruct f; simpl; lia.
Qed.

(** A loop over the ledger that ends: the fate of every row, what was
    kept, what was recorded, what was asked. *)
Lemma exit_loop_fates (env : Env) (cfg : Config) (rows : list Position) :
  forall to_keep sell_msgs w to_keep' sell_msgs' w',
  for_each (exit_body env cfg) rows (to_keep, sell_msgs) w
  = (Ok (to_keep', sell_msgs'), w') ->
  exists fates closed,
    verdicts env cfg (List.length (events w)) rows = map Ok fates
    /\ to_keep' = to_keep ++ kept_rows (combine rows fates)
    /\ sell_msgs' = sell_msgs ++ map sell_line closed
    /\ file_rows (EXIT_LOG w') = file_rows (EXIT_LOG w) ++ closed
    /\ map exit_triple closed = closed_rows (combine rows fates)
    /\ events w' = events w ++ map (fun r => EvDownload (ticker r) 30) rows
    /\ BUY_LOG w' = BUY_LOG w /\ stderr w' = stderr w.
Proof.
  induction rows as [|row rest IH]; intros to_keep sell_msgs w to_keep' sell_msgs' w' Hloop.
  - inversion Hloop; subst. exists [], []. simpl.
    now rewrite !app_nil_r.
  - cbn [for_each] in Hloop. unfold bind in Hloop.
    rewrite exit_body_verdict in Hloop. cbn [verdicts].
    destruct (row_verdict env cfg (List.length (events w)) row) as [[| |close why]|e];
      [| | |discriminate];
      apply IH in Hloop;
      destruct Hloop as [fates [closed [Hv [Hk [Hs [Hx [Ht [Hev [Hb Herr]]]]]]]]];
      rewrite ?events_add_event_length, ?events_recorded_length in Hv.
    + exists (Kept :: fates), closed. cbn [map combine]. rewrite Hv.
      unfold kept_rows, closed_rows in *. cbn [flat_map fst snd app].
      repeat split; try assumption.
      * now rewrite Hk, <- app_assoc.
      * rewrite Hev. cbn [events add_event]. now rewrite <- app_assoc.
    + exists (Dropped :: fates), closed. cbn [map combine]. rewrite Hv.
      unfold kept_rows, closed_rows in *. cbn [flat_map fst snd app].
      repeat split; try assumption.
      rewrite Hev. cbn [events add_event]. now rewrite <- app_assoc.
    + exists (Closed close why :: fates),
        (mkExitRecord (ticker row) close
           (strftime (clock env (add_event (EvDownload (ticker row) 30) w))) why
           :: closed).
      cbn [map combine]. rewrite Hv.
      unfold kept_rows, closed_rows in *. cbn [flat_map fst snd app].
      repeat split; try assumption.
      * rewrite Hs, <- app_assoc. reflexivity.
      * rewrite Hx. cbn. now rewrite <- app_assoc.
      * rewrite <- Ht. reflexivity.
      * rewrite Hev. cbn [events add_event set_EXIT_LOG]. now rewrite <- app_assoc.
Qed.

Lemma verdicts_combine (env : Env) (cfg : Config) (rows : list Position) :
  forall n fates r f,
  verdicts env cfg n rows = map Ok fates ->
  In (r, f) (combine rows fates) ->
  exists k, (n <= k)%nat /\ row_verdict env cfg k r = Ok f.
Proof.
  induction rows as [|row rest IH]; intros n fates r f Hv Hin; [contradiction|].
  destruct fates as [|f0 fates]; [discriminate|].
  cbn [verdicts map] in Hv. inversion Hv as [[H0 Hrest]].
  destruct Hin as [Heq | Hin].
  - inversion Heq; subst. exists n. split; [lia|exact H0].
  - destruct (IH (S n) fates r f Hrest Hin) as [k [Hk Hr]].
    exists k. split; [lia|exact Hr].
Qed.

Lemma first_match_cases (cfg : Config) (row : Position) (close : cell)
    (today : Z) (why : string) :
  first_match cfg row close today false = Some why ->
  (why = "Take Profit 10%"
   /\ cell_ge close (Some (price row * (11 # 10))%Q) = true)
  \/ (why = "Stop Loss 7%"
      /\ cell_ge close (Some (price row * (11 # 10))%Q) = false
      /\ cell_le close (Some (price row * (93 # 100))%Q) = true)
  \/ (why = max_hold_reason cfg
      /\ cell_ge close (Some (price row * (11 # 10))%Q) = false
      /\ cell_le close (Some (price row * (93 # 100))%Q) = false
      /\ held_too_long cfg row today = true).
Proof.
  unfold first_match, rule_priority. cbn [find rule_holds].
  destruct (cell_ge close _); [intros H; inversion H; auto|].
  destruct (cell_le close _); [intros H; inversion H; auto|].
  destruct (held_too_long cfg row today); [intros H; inversion H; auto 6|].
  discriminate.
Qed.

Lemma row_verdict_closed (env : Env) (cfg : Config) (n : nat) (row : Position)
    (close : cell) (why : string) :
  row_verdict env cfg n row = Ok (Closed close why) ->
  first_match cfg row close (datetime_now env (S n)) false = Some why.
Proof.
  unfold row_verdict.
  destruct (download env n (ticker row) 30) as [[bars|]|e]; try discriminate.
  destruct (rev bars) as [|b front]; [discriminate|].
  destruct (first_match cfg row (bar_close b) _ false) eqn:Hm; [|discriminate].
  intros H. inversion H; subst. exact Hm.
Qed.


Lemma exit_phase_loop (env : Env) (cfg : Config) (w : World) :
  exit_phase env cfg w
  = match for_each (exit_body env cfg) (file_rows (BUY_LOG w)) ([], []) w with
    | (Ok (to_keep, sell_msgs), w1) => (Ok sell_msgs, set_BUY_LOG (Some to_keep) w1)
    | (Raise e, w1) => (Raise e, w1)
    end.
Proof.
  unfold exit_phase, bind, load_portfolio. cbn [fst snd].
  now destruct (for_each (exit_body env cfg) (file_rows (BUY_LOG w)) ([], []) w)
    as [[[to_keep sell_msgs]|e] w1].
Qed.

(** X5.  An exit phase that ends gives every row of the ledger exactly
    one fate, in the order of the ledger and with one 30-day request per
    row: kept, closed or dropped.  The rewritten ledger holds the kept
    rows, unchanged and in their order; the exit file grows by one
    record per closed row, with the row's ticker, the latest close and
    the reason of the first rule that held; the sell messages are those
    records; nothing else is asked of the world. *)
Theorem exit_phase_one_fate_per_row (env : Env) (cfg : Config) (w : World)
    (sell_msgs : list Line) (w' : World) :
  exit_phase env cfg w = (Ok sell_msgs, w') ->
  let rows := file_rows (BUY_LOG w) in
  exists fates closed,
    verdicts env cfg (List.length (events w)) rows = map Ok fates
    /\ BUY_LOG w' = Some (kept_rows (combine rows fates))
    /\ file_rows (EXIT_LOG w') = file_rows (EXIT_LOG w) ++ closed
    /\ map exit_triple closed = closed_rows (combine rows fates)
    /\ sell_msgs = map sell_line closed
    /\ events w' = events w ++ map (fun r => EvDownload (ticker r) 30) rows
    /\ (List.length (kept_rows (combine rows fates)) + List.length closed
        <= List.length rows)%nat.
Proof.
  intros Hphase rows. rewrite exit_phase_loop in Hphase. fold rows in Hphase.
  destruct (for_each (exit_body env cfg) rows ([], []) w)
    as [[[to_keep sells]|e] w1] eqn:Hloop; [|discriminate].
  inversion Hphase; subst.
  destruct (exit_loop_fates env cfg rows [] [] w to_keep sell_msgs w1 Hloop)
    as [fates [closed [Hv [Hk [Hs [Hx [Ht [Hev [Hb Herr]]]]]]]]].
  exists fates, closed. cbn in Hk, Hs. subst.
  repeat split; try assumption.
  assert (List.length closed = List.length (closed_rows (combine rows fates))) as ->.
  { rewrite <- Ht. now rewrite length_map. }
  pose proof (kept_closed_length (combine rows fates)) as Hlen.
  assert (List.length (combine rows fates) = List.length rows) as Hc.
  { rewrite length_combine.
    assert (List.length fates = List.length rows) as ->.
    { rewrite <- (length_map Ok fates), <- Hv. clear. generalize (List.length (events w)).
      induction rows; intros n; simpl; [reflexivity|]. now rewrite IHrows. }
    apply Nat.min_id. }
  lia.
Qed.

(** AAA takes its profit, BBB is kept, ABC has no data and is dropped. *)
Lemma exit_phase_one_fate_per_row_witness :
  let env := market_env mixed_market failing_ta [] (at_time day_us) in
  let w := world_with [aaa; bbb; abc] in
  exists fates closed,
    verdicts env default_cfg 0 [aaa; bbb; abc] = map Ok fates
    /\ BUY_LOG (snd (exit_phase env default_cfg w))
       = Some (kept_rows (combine [aaa; bbb; abc] fates))
    /\ file_rows (EXIT_LOG (snd (exit_phase env default_cfg w))) = [] ++ closed
    /\ map exit_triple closed = closed_rows (combine [aaa; bbb; abc] fates)
    /\ [SellLine "AAA" (Some 111%Q) "Take Profit 10%"] = map sell_line closed
    /\ events (snd (exit_phase env default_cfg w))
       = [] ++ map (fun r => EvDownload (ticker r) 30) [aaa; bbb; abc]
    /\ (List.length (kept_rows (combine [aaa; bbb; abc] fates)) + List.length closed
        <= 3)%nat.
Proof.
  exact (exit_phase_one_fate_per_row
           (market_env mixed_market failing_ta [] (at_time day_us)) default_cfg
           (world_with [aaa; bbb; abc])
           [SellLine "AAA" (Some 111%Q) "Take Profit 10%"]
           (snd (exit_phase (market_env mixed_market failing_ta [] (at_time day_us))
                   default_cfg (world_with [aaa; bbb; abc])))
           eq_refl).
Defined.

Lemma cell_ge_profit (p : Q) (close : cell) :
  (0 < p)%Q -> cell_ge close (Some (p * (11 # 10))%Q) = true ->
  exists c, close = Some c /\ (p < c)%Q.
Proof.
  unfold cell_ge, cell_le. destruct close as [c|]; [|discriminate].
  intros Hp H. apply Qle_bool_iff in H. exists c. split; [reflexivity|lra].
Qed.

Lemma cell_le_loss (p : Q) (close : cell) :
  (0 < p)%Q -> cell_le close (Some (p * (93 # 100))%Q) = true ->
  exists c, close = Some c /\ (c < p)%Q.
Proof.
  unfold cell_le. destruct close as [c|]; [|discriminate].
  intros Hp H. apply Qle_bool_iff in H. exists c. split; [reflexivity|lra].
Qed.

(** X6.  The reason of an exit record names the rule that decided.
    Every record an exit phase writes belongs to a row of the ledger it
    loaded: "Take Profit 10%" means the recorded price is at least 1.10
    times the row's buy price; "Stop Loss 7%" means it is at most 0.93
    times the buy price and below the take-profit level; the max-hold
    reason means that neither price rule held.  For a position bought at
    a positive price a take-profit price is above the buy price and a
    stop-loss price is below it. *)
Theorem exit_records_explained (env : Env) (cfg : Config) (w : World)
    (sell_msgs : list Line) (w' : World) :
  exit_phase env cfg w = (Ok sell_msgs, w') ->
  (exists closed,
     file_rows (EXIT_LOG w') = file_rows (EXIT_LOG w) ++ closed
     /\ Forall (fun x => exists row, In row (file_rows (BUY_LOG w))
                                     /\ explained_by cfg row x) closed)
  /\ (forall row x, explained_by cfg row x -> (0 < price row)%Q ->
        (exit_reason x = "Take Profit 10%" ->
           exists c, exit_price x = Some c /\ (price row < c)%Q)
        /\ (exit_reason x = "Stop Loss 7%" ->
              exists c, exit_price x = Some c /\ (c < price row)%Q)).
Proof.
  intros Hphase. split.
  - rewrite exit_phase_loop in Hphase.
    destruct (for_each (exit_body env cfg) (file_rows (BUY_LOG w)) ([], []) w)
      as [[[to_keep sells]|e] w1] eqn:Hloop; [|discriminate].
    inversion Hphase; subst.
    destruct (exit_loop_fates env cfg _ [] [] w to_keep sell_msgs w1 Hloop)
      as [fates [closed [Hv [_ [_ [Hx [Ht _]]]]]]].
    exists closed. split; [exact Hx|].
    apply Forall_forall. intros x Hin.
    assert (In (exit_triple x) (closed_rows (combine (file_rows (BUY_LOG w)) fates)))
      as Htriple by (rewrite <- Ht; now apply in_map).
    unfold closed_rows in Htriple. apply in_flat_map in Htriple.
    destruct Htriple as [[row f] [Hrf Hf]]. cbn [fst snd] in Hf.
    destruct f as [| |close why]; try contradiction.
    destruct Hf as [Hf | []]. unfold exit_triple in Hf. inversion Hf as [[Ht1 Hc1 Hw1]].
    destruct (verdicts_combine env cfg _ _ fates row (Closed close why) Hv Hrf)
      as [k [_ Hk]].
    apply row_verdict_closed, first_match_cases in Hk.
    exists row. split; [now apply in_combine_l in Hrf|].
    unfold explained_by. rewrite <- Ht1, <- Hc1, <- Hw1. split; [reflexivity|].
    destruct Hk as [[-> H1] | [[-> [H1 H2]] | [-> [H1 [H2 _]]]]]; auto 6.
  - intros row x [_ Hx] Hp. split; intros Hr.
    + destruct Hx as [[_ H] | [[Hr' _] | [Hr' _]]].
      * now apply cell_ge_profit.
      * rewrite Hr in Hr'. discriminate.
      * rewrite Hr in Hr'. symmetry in Hr'.
        destruct (max_hold_reason_prefix cfg) as [rest Hm]. rewrite Hm in Hr'.
        discriminate.
    + destruct Hx as [[Hr' _] | [[_ [_ H]] | [Hr' _]]].
      * rewrite Hr in Hr'. discriminate.
      * now apply cell_le_loss.
      * rewrite Hr in Hr'. symmetry in Hr'.
        destruct (max_hold_reason_prefix cfg) as [rest Hm]. rewrite Hm in Hr'.
        discriminate.
Qed.

(** The record written for AAA is explained by the AAA row. *)
Lemma exit_records_explained_witness :
  let env := market_env mixed_market failing_ta [] (at_time day_us) in
  let w := world_with [aaa; bbb; abc] in
  exists closed,
    file_rows (EXIT_LOG (snd (exit_phase env default_cfg w))) = [] ++ closed
    /\ Forall (fun x => exists row, In row [aaa; bbb; abc]
                                    /\ explained_by default_cfg row x) closed.
Proof.
  exact (proj1 (exit_records_explained
                  (market_env mixed_market failing_ta [] (at_time day_us)) default_cfg
                  (world_with [aaa; bbb; abc])
                  [SellLine "AAA" (Some 111%Q) "Take Profit 10%"]
                  (snd (exit_phase (market_env mixed_market failing_ta [] (at_time day_us))
                          default_cfg (world_with [aaa; bbb; abc])))
                  eq_refl)).
Defined.




(** ** Running the exit phase again *)

Lemma row_verdict_stationary (env : Env) (cfg : Config) (n : nat) (row : Position) :
  stationary env -> row_verdict env cfg n row = row_verdict env cfg 0 row.
Proof.
  intros [Hd Hn]. unfold row_verdict.
  now rewrite (Hd n), (Hn (S n)), (Hn 1%nat).
Qed.

Lemma exit_loop_stationary (env : Env) (cfg : Config) (rows : list Position) :
  stationary env ->
  forall to_keep sell_msgs w to_keep' sell_msgs' w',
  for_each (exit_body env cfg) rows (to_keep, sell_msgs) w
  = (Ok (to_keep', sell_msgs'), w') ->
  to_keep' = to_keep ++ filter (kept_now env cfg) rows.
Proof.
  intros Hs. induction rows as [|row rest IH];
    intros to_keep sell_msgs w to_keep' sell_msgs' w' Hloop.
  - inversion Hloop. now rewrite app_nil_r.
  - cbn [for_each] in Hloop. unfold bind in Hloop.
    rewrite exit_body_verdict, (row_verdict_stationary env cfg _ row Hs) in Hloop.
    cbn [filter]. unfold kept_now at 1.
    destruct (row_verdict env cfg 0 row) as [[| |close why]|e]; [| | |discriminate];
      apply IH in Hloop; rewrite Hloop; [|reflexivity|reflexivity].
    now rewrite <- app_assoc.
Qed.

Lemma exit_loop_kept_again (env : Env) (cfg : Config) (rows : list Position) :
  stationary env ->
  Forall (fun row => kept_now env cfg row = true) rows ->
  forall to_keep sell_msgs w,
  exists w',
    for_each (exit_body env cfg) rows (to_keep, sell_msgs) w
    = (Ok (to_keep ++ rows, sell_msgs), w')
    /\ BUY_LOG w' = BUY_LOG w /\ EXIT_LOG w' = EXIT_LOG w.
Proof.
  intros Hs Hall. induction Hall as [|row rest Hrow _ IH]; intros to_keep sell_msgs w.
  - exists w. cbn. now rewrite app_nil_r.
  - cbn [for_each]. unfold bind.
    rewrite exit_body_verdict, (row_verdict_stationary env cfg _ row Hs).
    unfold kept_now in Hrow.
    destruct (row_verdict env cfg 0 row) as [[| |close why]|e]; try discriminate.
    destruct (IH (to_keep ++ [row]) sell_msgs
                (add_event (EvDownload (ticker row) 30) w)) as [w' [Hloop [Hb Hx]]].
    exists w'. rewrite Hloop, <- app_assoc. now repeat split.
Qed.

(** X8.  With a provider and a clock whose answers do not change, the
    exit phase is idempotent on the ledger: after an exit phase that
    ended and kept at least one row, a second one keeps every row of
    the rewritten ledger, writes no exit record and reports no sale.
    (A ledger rewritten with no row at all is a file without a header
    line, whose reading is a matter of the textual layout; the statement
    does not speak of it.) *)
Theorem exit_phase_twice (env : Env) (cfg : Config) (w : World)
    (sell_msgs : list Line) (w1 : World) :
  stationary env ->
  filter (kept_now env cfg) (file_rows (BUY_LOG w)) <> [] ->
  exit_phase env cfg w = (Ok sell_msgs, w1) ->
  BUY_LOG w1 = Some (filter (kept_now env cfg) (file_rows (BUY_LOG w)))
  /\ exists w2,
       exit_phase env cfg w1 = (Ok [], w2)
       /\ BUY_LOG w2 = BUY_LOG w1 /\ EXIT_LOG w2 = EXIT_LOG w1.
Proof.
  intros Hs _ Hphase. rewrite exit_phase_loop in Hphase.
  destruct (for_each (exit_body env cfg) (file_rows (BUY_LOG w)) ([], []) w)
    as [[[to_keep sells]|e] w0] eqn:Hloop; [|discriminate].
  inversion Hphase; subst.
  apply (exit_loop_stationary env cfg _ Hs) in Hloop. cbn [app] in Hloop. subst to_keep.
  split; [reflexivity|].
  rewrite exit_phase_loop. cbn [BUY_LOG set_BUY_LOG file_rows].
  destruct (exit_loop_kept_again env cfg
              (filter (kept_now env cfg) (file_rows (BUY_LOG w))) Hs) with
    (to_keep := @nil Position) (sell_msgs := @nil Line)
    (w := set_BUY_LOG (Some (filter (kept_now env cfg) (file_rows (BUY_LOG w)))) w0)
    as [w' [Hagain [Hb Hx]]].
  - apply Forall_forall. intros row Hin. now apply filter_In in Hin.
  - rewrite Hagain. cbn [app]. eexists. split; [reflexivity|].
    cbn [BUY_LOG EXIT_LOG set_BUY_LOG]. split; [reflexivity|exact Hx].
Qed.

(** AAA is sold and ABC dropped by the first exit phase; the second
    keeps BBB and records nothing. *)
Lemma exit_phase_twice_witness :
  let env := market_env mixed_market failing_ta [] (at_time day_us) in
  let w1 := snd (exit_phase env default_cfg (world_with [aaa; bbb; abc])) in
  BUY_LOG w1 = Some [bbb]
  /\ exists w2,
       exit_phase env default_cfg w1 = (Ok [], w2)
       /\ BUY_LOG w2 = BUY_LOG w1 /\ EXIT_LOG w2 = EXIT_LOG w1.
Proof.
  exact (exit_phase_twice
           (market_env mixed_market failing_ta [] (at_time day_us)) default_cfg
           (world_with [aaa; bbb; abc])
           [SellLine "AAA" (Some 111%Q) "Take Profit 10%"]
           (snd (exit_phase (market_env mixed_market failing_ta [] (at_time day_us))
                   default_cfg (world_with [aaa; bbb; abc])))
           (conj (fun _ _ _ => eq_refl) (fun _ => eq_refl))
           (fun H : [bbb] = [] => eq_ind [bbb] (fun l => match l with [] => False | _ => True end) I [] H)
           eq_refl).
Defined.

(** ** Edges of the exit rules *)

(** X9.  A latest close that is missing (NaN) satisfies neither price
    rule, and the exit download is not cleaned of missing values: such a
    position can leave only by max hold, and its exit record then
    carries the missing price; otherwise it is kept. *)
Theorem missing_close_only_max_hold (env : Env) (cfg : Config) (row : Position)
    (to_keep : list Position) (sell_msgs : list Line) (w : World)
    (bars : list Bar) (b : Bar) :
  download env (List.length (events w)) (ticker row) 30 = Ok (Some (bars ++ [b])) ->
  bar_close b = NaN ->
  let w1 := add_event (EvDownload (ticker row) 30) w in
  exit_body env cfg row (to_keep, sell_msgs) w
  = if held_too_long cfg row (clock env w1)
    then (Ok (to_keep, sell_msgs ++ [SellLine (ticker row) NaN (max_hold_reason cfg)]),
          set_EXIT_LOG
            (append_row (EXIT_LOG w1)
               (mkExitRecord (ticker row) NaN (strftime (clock env w1))
                  (max_hold_reason cfg)))
            w1)
    else (Ok (to_keep ++ [row], sell_msgs), w1).
Proof.
  intros Hd Hnan w1. rewrite exit_body_verdict. fold w1.
  assert (clock env w1 = datetime_now env (S (List.length (events w)))) as Hclock
    by (unfold clock, w1; now rewrite events_add_event_length).
  unfold row_verdict. rewrite Hd, rev_unit, Hnan, Hclock.
  unfold first_match, rule_priority. cbn [find rule_holds cell_ge cell_le NaN].
  now destruct (held_too_long cfg row _).
Qed.

(** A bar without a close, fifteen days after the entry and one day
    after it. *)
Lemma missing_close_only_max_hold_witness :
  let gap := mkBar NaN NaN NaN NaN NaN in
  let late := market_env (fun _ => Some [flat_bar 100; gap]) failing_ta []
                (at_time (15 * day_us)) in
  let early := market_env (fun _ => Some [flat_bar 100; gap]) failing_ta []
                 (at_time day_us) in
  fst (exit_body late default_cfg aaa ([], []) (world_with [aaa]))
  = Ok ([], [SellLine "AAA" NaN "Max Hold 14 days"])
  /\ fst (exit_body early default_cfg aaa ([], []) (world_with [aaa]))
     = Ok ([aaa], []).
Proof.
  split.
  - exact (f_equal fst
             (missing_close_only_max_hold
                (market_env (fun _ => Some [flat_bar 100; mkBar NaN NaN NaN NaN NaN])
                   failing_ta [] (at_time (15 * day_us)))
                default_cfg aaa [] [] (world_with [aaa])
                [flat_bar 100] (mkBar NaN NaN NaN NaN NaN) eq_refl eq_refl)).
  - exact (f_equal fst
             (missing_close_only_max_hold
                (market_env (fun _ => Some [flat_bar 100; mkBar NaN NaN NaN NaN NaN])
                   failing_ta [] (at_time day_us))
                default_cfg aaa [] [] (world_with [aaa])
                [flat_bar 100] (mkBar NaN NaN NaN NaN NaN) eq_refl eq_refl)).
Defined.

(** X10.  The max-hold rule by calendar day.  The entry date is read as
    its midnight, so a position entered on day [d] with a limit of [N]
    days is not closed for max hold on any day before [d + N], is closed
    on day [d + N] at every instant after midnight, and on every later
    day; on a close that triggers no price rule this test alone decides
    between the max-hold exit and keeping the position. *)
Theorem max_hold_by_calendar_day (env : Env) (cfg : Config) (row : Position) :
  (forall today,
     (strftime today < entry row + MAX_HOLD_DAYS cfg ->
        held_too_long cfg row today = false)
     /\ (strftime today > entry row + MAX_HOLD_DAYS cfg ->
           held_too_long cfg row today = true)
     /\ (strftime today = entry row + MAX_HOLD_DAYS cfg ->
           held_too_long cfg row today
           = negb (today =? strptime (entry row + MAX_HOLD_DAYS cfg))))
  /\ (forall bars latest w close,
        pd.at_label latest "Close" = Ok close ->
        cell_ge close (Some (price row * (11 # 10))%Q) = false ->
        cell_le close (Some (price row * (93 # 100))%Q) = false ->
        exit_rule env cfg row (yf_frame bars) latest w
        = (Ok (if held_too_long cfg row (clock env w)
               then Some (max_hold_reason cfg) else None), w)).
Proof.
  split.
  - intros today. unfold held_too_long, strftime, strptime, timedelta.
    pose proof (Z.div_mod today day_us) as Hdiv.
    pose proof (Z.mod_pos_bound today day_us) as Hmod.
    unfold day_us in *.
    specialize (Hdiv ltac:(lia)). specialize (Hmod ltac:(lia)).
    repeat split; intros H.
    + rewrite Z.gtb_ltb. apply Z.ltb_ge. lia.
    + rewrite Z.gtb_ltb. apply Z.ltb_lt. lia.
    + rewrite Z.gtb_ltb.
      destruct (today =? (entry row + MAX_HOLD_DAYS cfg) * 86400000000) eqn:He; simpl.
      * apply Z.eqb_eq in He. apply Z.ltb_ge. lia.
      * apply Z.eqb_neq in He. apply Z.ltb_lt. lia.
  - intros bars latest w close Hclose Hge Hle.
    rewrite (exit_rule_trend env cfg row _ latest w close false Hclose
               (trend_reversal_on_download bars)).
    unfold first_match, rule_priority. cbn [find rule_holds]. rewrite Hge, Hle.
    now destruct (held_too_long cfg row (clock env w)).
Qed.

(** A closing witness for the calendar rule: bought on day 0 with a limit
    of 14 days, AAA is kept at midnight of day 14 and closed one
    microsecond later. *)
Lemma max_hold_by_calendar_day_witness :
  held_too_long default_cfg aaa (14 * day_us) = false
  /\ held_too_long default_cfg aaa (14 * day_us + 1) = true.
Proof.
  split.
  - exact (proj2 (proj2 (proj1 (max_hold_by_calendar_day
                                  (silent_env (at_time 0)) default_cfg aaa)
                           (14 * day_us))) eq_refl).
  - exact (proj2 (proj2 (proj1 (max_hold_by_calendar_day
                                  (silent_env (at_time 0)) default_cfg aaa)
                           (14 * day_us + 1))) eq_refl).
Defined.

(** ** The entry loop, ticker by ticker *)

Lemma five_conditions_close (latest : pd.Series) :
  five_conditions latest = true -> exists p, pd.values latest "Close" = Some p.
Proof.
  unfold five_conditions. intros H.
  repeat (apply andb_prop in H; destruct H as [H ?]).
  unfold cell_le in *. destruct (pd.values latest "Close") as [p|]; [eauto|discriminate].
Qed.

(** What a turn of the entry loop returns and leaves for a ticker that
    is not in the portfolio, by the price of its signal. *)
Lemma entry_body_value (env : Env) (cfg : Config) (portfolio : list Position)
    (t : string) (balance : Q) (buy_msgs : list Line) (w : World) :
  pd.has_label t (map ticker portfolio) = false ->
  let w1 := add_event (EvDownload t 250) w in
  let allocation := (STARTING_CASH cfg * MAX_POSITION_SIZE cfg)%Q in
  let why := join canonical_reasons in
  entry_body env cfg portfolio t (balance, buy_msgs) w
  = match signal_price env t w with
    | None => (Ok (balance, buy_msgs), snd (scan_indicators env t w))
    | Some p =>
        if Qeq_bool p 0 then
          (Raise (if Qeq_bool allocation 0 then ValueError else OverflowError), w1)
        else if (0 <? sized_shares cfg p)
                && Qle_bool (p * inject_Z (sized_shares cfg p)) balance then
          (Ok ((balance - p * inject_Z (sized_shares cfg p))%Q,
               buy_msgs ++ [BuyLine t p why]),
           set_BUY_LOG
             (append_row (BUY_LOG w1)
                (mkPosition t p (strftime (clock env w1)) why (sized_shares cfg p)))
             w1)
        else (Ok (balance, buy_msgs), w1)
    end.
Proof.
  intros Hnot w1 allocation why. unfold signal_price.
  destruct (latest_snapshot env t w) as [latest|] eqn:Hlatest.
  destruct (five_conditions latest) eqn:Hfive.
  - destruct (five_conditions_close latest Hfive) as [p Hp]. rewrite Hp.
    destruct (scan_indicators_signal env t w latest Hlatest Hfive)
      as [df [col [Hscan [Hcol Hlast]]]].
    unfold entry_body. rewrite Hnot. unfold bind at 1.
    rewrite Hscan. cbn [truthy_list canonical_reasons].
    rewrite !bind_lift, Hcol. rewrite !bind_lift, Hlast, Hp.
    rewrite !bind_lift. unfold int_floordiv. fold allocation w1.
    destruct (Qeq_bool p 0); [now destruct (Qeq_bool allocation 0)|].
    change (sized_shares cfg p) with (Qfloor (allocation / p)).
    now destruct ((0 <? Qfloor (allocation / p))
                  && Qle_bool (p * inject_Z (Qfloor (allocation / p))) balance).
  - unfold entry_body. rewrite Hnot. unfold bind at 1.
    pose proof (scan_outcome_signal env t w) as Hsig.
    rewrite scan_indicators_outcome.
    unfold signal_of in Hsig. rewrite Hlatest, Hfive in Hsig.
    destruct (scan_outcome env t w) as [[df reasons]|e]; [now subst reasons|reflexivity].
  - unfold entry_body. rewrite Hnot. unfold bind at 1.
    pose proof (scan_outcome_signal env t w) as Hsig.
    rewrite scan_indicators_outcome.
    unfold signal_of in Hsig. rewrite Hlatest in Hsig.
    destruct (scan_outcome env t w) as [[df reasons]|e]; [now subst reasons|reflexivity].
Qed.

(** A turn that ends either leaves ledger, balance and messages alone or
    appends one position, written as sized for a signal, with its
    message. *)
Lemma entry_body_bought (env : Env) (cfg : Config) (portfolio : list Position)
    (t : string) (b : Q) (msgs : list Line) (w : World)
    (b' : Q) (msgs' : list Line) (w' : World) :
  entry_body env cfg portfolio t (b, msgs) w = (Ok (b', msgs'), w') ->
  (BUY_LOG w' = BUY_LOG w /\ b' = b /\ msgs' = msgs)
  \/ (exists row,
        file_rows (BUY_LOG w') = file_rows (BUY_LOG w) ++ [row]
        /\ b' = (b - cost row)%Q
        /\ msgs' = msgs ++ [buy_line row]
        /\ ticker row = t
        /\ pd.has_label t (map ticker portfolio) = false
        /\ as_sized cfg row
        /\ (cost row <= b)%Q).
Proof.
  destruct (pd.has_label t (map ticker portfolio)) eqn:Hin.
  - unfold entry_body. rewrite Hin. intros H. inversion H. now left.
  - rewrite (entry_body_value env cfg portfolio t b msgs w Hin).
    destruct (scan_indicators_world env t w) as [_ [Hbuy _]].
    destruct (signal_price env t w) as [p|].
    + destruct (Qeq_bool p 0) eqn:Hzero; [discriminate|].
      destruct (0 <? sized_shares cfg p) eqn:Hpos; cbn [andb];
        [|intros H; inversion H; now left].
      destruct (Qle_bool (p * inject_Z (sized_shares cfg p)) b) eqn:Hcost;
        [|intros H; inversion H; now left].
      intros H. inversion H; subst. right.
      eexists. split; [reflexivity|]. unfold cost, buy_line, as_sized.
      cbn [ticker price shares reason]. repeat split.
      * now apply Qeq_bool_neq.
      * now apply Z.ltb_lt.
      * now apply Qle_bool_iff.
    + intros H. inversion H; subst. left. now rewrite Hbuy.
Qed.

Lemma entry_loop_bought (env : Env) (cfg : Config) (portfolio : list Position)
    (tickers : list string) (b : Q) (w : World)
    (b' : Q) (msgs' : list Line) (w' : World) :
  for_each (entry_body env cfg portfolio) tickers (b, []) w = (Ok (b', msgs'), w') ->
  exists bought,
    file_rows (BUY_LOG w') = file_rows (BUY_LOG w) ++ bought
    /\ msgs' = map buy_line bought
    /\ Forall (as_sized cfg) bought.
Proof.
  intros Hloop.
  apply (for_each_invariant (entry_body env cfg portfolio)
           (fun s w0 => exists bought,
                file_rows (BUY_LOG w0) = file_rows (BUY_LOG w) ++ bought
                /\ snd s = map buy_line bought
                /\ Forall (as_sized cfg) bought))
    with (xs := tickers) (s := (b, [])) (w := w) (s' := (b', msgs')) (w' := w');
    [| |exact Hloop].
  - intros t [b0 m0] w0 [b1 m1] w1 [bought [Hrows [Hmsgs Hall]]] Hturn.
    cbn [snd] in *.
    destruct (entry_body_bought env cfg portfolio t b0 m0 w0 b1 m1 w1 Hturn)
      as [[Hlog [_ ->]] | [row [Hr [_ [-> [_ [_ [Hsized _]]]]]]]].
    + exists bought. rewrite Hlog. now repeat split.
    + exists (bought ++ [row]). rewrite Hr, Hrows, Hmsgs, map_app, <- app_assoc.
      repeat split. apply Forall_app. split; [exact Hall|now constructor].
  - exists []. cbn. now rewrite app_nil_r.
Qed.

(** X11.  The buys of a pass and its report agree, and every buy is a
    signal buy.  An entry phase that ends has appended to the ledger the
    positions it bought, one message per position with its ticker, price
    and reasons, in the same order; every position carries the five
    reasons joined by ", ", a price that is not zero, and the share
    count of the sizing rule, which is at least one. *)
Theorem entry_phase_buys_reported (env : Env) (cfg : Config) (w : World)
    (b : Q) (buy_msgs : list Line) (w' : World) :
  entry_phase env cfg w = (Ok (b, buy_msgs), w') ->
  exists bought,
    file_rows (BUY_LOG w') = file_rows (BUY_LOG w) ++ bought
    /\ buy_msgs = map buy_line bought
    /\ Forall (fun row =>
                 reason row = "RSI<50, MACD>Signal, Close<=BB_Upper, ADX>15, Close>SMA200"
                 /\ ~ (price row == 0)%Q
                 /\ shares row
                    = Qfloor ((STARTING_CASH cfg * MAX_POSITION_SIZE cfg) / price row)%Q
                 /\ 0 < shares row) bought.
Proof.
  intros Hphase.
  destruct (entry_phase_loop env cfg w) as [tickers [w1 [_ [_ [Hbuy [_ Hloop]]]]]].
  rewrite Hloop in Hphase. apply entry_loop_bought in Hphase.
  destruct Hphase as [bought [Hrows [Hmsgs Hall]]].
  exists bought. rewrite <- Hbuy. now repeat split.
Qed.

(** On an empty ledger where ABC and XYZ signal at 25, both are bought
    and reported in that order. *)
Lemma entry_phase_buys_reported_witness :
  exists bought,
    file_rows (BUY_LOG (snd (entry_phase bull_env default_cfg fresh_world)))
    = [] ++ bought
    /\ [BuyLine "ABC" 25 (join canonical_reasons);
        BuyLine "XYZ" 25 (join canonical_reasons)] = map buy_line bought
    /\ Forall (fun row =>
                 reason row = "RSI<50, MACD>Signal, Close<=BB_Upper, ADX>15, Close>SMA200"
                 /\ ~ (price row == 0)%Q
                 /\ shares row
                    = Qfloor ((STARTING_CASH default_cfg * MAX_POSITION_SIZE default_cfg)
                              / price row)%Q
                 /\ 0 < shares row) bought.
Proof.
  exact (entry_phase_buys_reported bull_env default_cfg fresh_world 9000
           [BuyLine "ABC" 25 (join canonical_reasons);
            BuyLine "XYZ" 25 (join canonical_reasons)]
           (snd (entry_phase bull_env default_cfg fresh_world)) eq_refl).
Defined.

(** ** The size of a position *)

Lemma sized_within_allocation (cfg : Config) (p : Q) :
  let allocation := (STARTING_CASH cfg * MAX_POSITION_SIZE cfg)%Q in
  ~ (p == 0)%Q -> 0 < sized_shares cfg p -> (0 <= allocation)%Q ->
  (0 < p)%Q
  /\ (p * inject_Z (sized_shares cfg p) <= allocation)%Q
  /\ (allocation < p * inject_Z (sized_shares cfg p) + p)%Q.
Proof.
  intros allocation Hp Hn Ha. unfold sized_shares in *. fold allocation in Hn |- *.
  pose proof (Qfloor_le (allocation / p)) as Hlow.
  pose proof (Qlt_floor (allocation / p)) as Hhigh.
  pose proof (Qmult_div_r allocation p Hp) as Hdiv.
  set (x := (allocation / p)%Q) in *.
  set (n := Qfloor x) in *.
  assert (1 <= inject_Z n)%Q as H1.
  { change 1%Q with (inject_Z 1). rewrite <- Zle_Qle. lia. }
  rewrite inject_Z_plus in Hhigh. change (inject_Z 1) with 1%Q in Hhigh.
  assert (0 < p)%Q as Hpos.
  { destruct (Qlt_le_dec 0 p) as [H | H]; [exact H|].
    assert (p < 0)%Q as Hneg.
    { apply Qle_lteq in H. destruct H as [H | H]; [exact H|]. now elim Hp. }
    exfalso. nra. }
  split; [exact Hpos|]. split; nra.
Qed.

(** X12.  No position costs more than the allocation.  With a
    non-negative allocation [startingCash * maxPositionFraction], every
    position an entry phase buys has a positive price, costs at most the
    allocation, and one more share would exceed it. *)
Theorem position_within_allocation (env : Env) (cfg : Config) (w : World)
    (b : Q) (buy_msgs : list Line) (w' : World) :
  let allocation := (STARTING_CASH cfg * MAX_POSITION_SIZE cfg)%Q in
  (0 <= allocation)%Q ->
  entry_phase env cfg w = (Ok (b, buy_msgs), w') ->
  exists bought,
    file_rows (BUY_LOG w') = file_rows (BUY_LOG w) ++ bought
    /\ Forall (fun row =>
                 (0 < price row)%Q
                 /\ (cost row <= allocation)%Q
                 /\ (allocation < cost row + price row)%Q) bought.
Proof.
  intros allocation Ha Hphase.
  destruct (entry_phase_loop env cfg w) as [tickers [w1 [_ [_ [Hbuy [_ Hloop]]]]]].
  rewrite Hloop in Hphase. apply entry_loop_bought in Hphase.
  destruct Hphase as [bought [Hrows [_ Hall]]].
  exists bought. rewrite <- Hbuy. split; [exact Hrows|].
  eapply Forall_impl; [|exact Hall].
  intros row [_ [Hp [Hn Hpos]]]. rewrite Hn in Hpos. unfold cost. rewrite Hn.
  exact (sized_within_allocation cfg (price row) Hp Hpos Ha).
Qed.

(** With 10000 in cash and a fraction of 0.05 the two buys at 25 cost
    500 each, the whole allocation. *)
Lemma position_within_allocation_witness :
  exists bought,
    file_rows (BUY_LOG (snd (entry_phase bull_env default_cfg fresh_world)))
    = [] ++ bought
    /\ Forall (fun row =>
                 (0 < price row)%Q
                 /\ (cost row <= STARTING_CASH default_cfg * MAX_POSITION_SIZE default_cfg)%Q
                 /\ (STARTING_CASH default_cfg * MAX_POSITION_SIZE default_cfg
                     < cost row + price row)%Q) bought.
Proof.
  refine (position_within_allocation bull_env default_cfg fresh_world 9000
            [BuyLine "ABC" 25 (join canonical_reasons);
             BuyLine "XYZ" 25 (join canonical_reasons)]
            (snd (entry_phase bull_env default_cfg fresh_world)) _ eq_refl).
  vm_compute. discriminate.
Defined.





(** ** The frame of the scan *)

Lemma add_indicators_is_dropna (env : Env) (d : pd.DataFrame) (w : World)
    (df : pd.DataFrame) :
  fst (add_indicators env d w) = Ok df -> exists d', df = pd.dropna d'.
Proof.
  unfold add_indicators.
  repeat (rewrite !bind_lift;
          match goal with
          | |- context [match ?r with Ok _ => _ | Raise _ => _ end] =>
              destruct r; [|discriminate]
          end).
  intros H. inversion H. eauto.
Qed.

Lemma dropna_complete (d : pd.DataFrame) :
  Forall (fun r => forall c, In c (pd.columns (pd.dropna d)) -> exists q, r c = Some q)
    (pd.rows (pd.dropna d)).
Proof.
  apply Forall_forall. intros r Hin c Hc. cbn [pd.dropna pd.rows pd.columns] in *.
  apply filter_In in Hin. destruct Hin as [_ Hall].
  rewrite forallb_forall in Hall. specialize (Hall c Hc).
  destruct (r c) as [q|]; [eauto|discriminate].
Qed.

(** X14.  The frame [scan_indicators] hands back has no missing value.
    Whenever it returns a frame, the frame has the five price columns
    and the seven indicator columns, at least one row, a number in every
    cell, and the price [run_bot] reads from it, the last close, is a
    number. *)
Theorem scan_frame_complete (env : Env) (t : string) (w : World)
    (df : pd.DataFrame) (reasons : option (list string)) (w' : World) :
  scan_indicators env t w = (Ok (Some df, reasons), w') ->
  pd.columns df
  = ["Open"; "High"; "Low"; "Close"; "Volume";
     "rsi"; "macd"; "macd_signal"; "bb_lower"; "bb_upper"; "adx"; "sma_200"]
  /\ pd.rows df <> []
  /\ Forall (fun r => forall c, In c (pd.columns df) -> exists q, r c = Some q)
       (pd.rows df)
  /\ exists col p, pd.getitem df "Close" = Ok col /\ pd.iloc_last col = Ok (Some p).
Proof.
  rewrite scan_indicators_outcome. unfold scan_outcome.
  destruct (download env (List.length (events w)) t 250) as [[bars|]|e];
    try discriminate.
  destruct (pd.empty (yf_frame bars)); [discriminate|].
  destruct (fst (add_indicators env (yf_frame bars) w)) as [df0|e] eqn:Hdf;
    [|discriminate].
  destruct (pd.last_row df0) as [latest|e] eqn:Hlast; [|discriminate].
  intros H. inversion H; subst df0. clear H.
  pose proof (add_indicators_columns env bars w df Hdf) as Hcols.
  destruct (add_indicators_is_dropna env _ w df Hdf) as [d' Hd'].
  assert (Forall (fun r => forall c, In c (pd.columns df) -> exists q, r c = Some q)
            (pd.rows df)) as Hall by (rewrite Hd'; apply dropna_complete).
  assert (In (pd.values latest) (pd.rows df)) as Hin.
  { unfold pd.last_row in Hlast. destruct (rev (pd.rows df)) as [|r rs] eqn:Hrev;
      [discriminate|].
    inversion Hlast. cbn [pd.values]. apply in_rev. rewrite Hrev. now left. }
  split; [exact Hcols|]. split; [|split; [exact Hall|]].
  - intros Hnil. rewrite Hnil in Hin. contradiction.
  - destruct (last_row_item df latest "Close" Hlast) as [col [Hcol Hclose]].
    { now rewrite Hcols. }
    rewrite Forall_forall in Hall.
    destruct (Hall _ Hin "Close") as [p Hp].
    { rewrite Hcols. cbn. tauto. }
    exists col, p. rewrite <- Hp. now split.
Qed.

(** The frame of ABC in the bullish market. *)
Lemma scan_frame_complete_witness :
  let df := match fst (scan_indicators bull_env "ABC" fresh_world) with
            | Ok (Some df, _) => df
            | _ => yf_frame []
            end in
  pd.rows df <> []
  /\ exists col p, pd.getitem df "Close" = Ok col /\ pd.iloc_last col = Ok (Some p).
Proof.
  intros df.
  assert (scan_indicators bull_env "ABC" fresh_world
          = (Ok (Some df, Some canonical_reasons),
             snd (scan_indicators bull_env "ABC" fresh_world))) as Hscan
    by (vm_compute; reflexivity).
  destruct (scan_frame_complete bull_env "ABC" fresh_world df _ _ Hscan)
    as [_ [Hrows [_ Hclose]]].
  split; assumption.
Defined.

(** ** The report of a run *)









(** X16.  The exit phase reloads the ledger after the buys: in a run
    whose two phases end, every position bought by the entry phase is
    evaluated for exit in the same run, after the rows that were loaded
    at the start, with one 30-day request per row. *)
Theorem bought_positions_evaluated_same_run (env : Env) (cfg : Config) (w : World)
    (b : Q) (buy_msgs : list Line) (w1 : World) (sell_msgs : list Line) (w2 : World) :
  entry_phase env cfg w = (Ok (b, buy_msgs), w1) ->
  exit_phase env cfg w1 = (Ok sell_msgs, w2) ->
  exists bought,
    buy_msgs = map buy_line bought
    /\ events w2
       = events w1
           ++ map (fun r => EvDownload (ticker r) 30) (file_rows (BUY_LOG w) ++ bought).
Proof.
  intros Hentry Hexit.
  destruct (entry_phase_loop env cfg w) as [tickers [w0 [_ [_ [Hbuy [_ Hloop]]]]]].
  rewrite Hloop in Hentry. apply entry_loop_bought in Hentry.
  destruct Hentry as [bought [Hrows [Hmsgs _]]].
  rewrite exit_phase_loop in Hexit.
  destruct (for_each (exit_body env cfg) (file_rows (BUY_LOG w1)) ([], []) w1)
    as [[[to_keep sells]|e] w3] eqn:Hfor; [|discriminate].
  inversion Hexit; subst.
  destruct (exit_loop_fates env cfg _ [] [] w1 to_keep sell_msgs w3 Hfor)
    as [fates [closed [_ [_ [_ [_ [_ [Hev _]]]]]]]].
  exists bought. split; [reflexivity|].
  cbn [events set_BUY_LOG]. now rewrite Hev, Hrows, Hbuy.
Qed.

(** ABC and XYZ are bought on an empty ledger and evaluated at once. *)
Lemma bought_positions_evaluated_same_run_witness :
  let w1 := snd (entry_phase bull_env default_cfg fresh_world) in
  let w2 := snd (exit_phase bull_env default_cfg w1) in
  exists bought,
    [BuyLine "ABC" 25 (join canonical_reasons);
     BuyLine "XYZ" 25 (join canonical_reasons)] = map buy_line bought
    /\ events w2
       = events w1 ++ map (fun r => EvDownload (ticker r) 30) ([] ++ bought).
Proof.
  exact (bought_positions_evaluated_same_run bull_env default_cfg fresh_world 9000
           [BuyLine "ABC" 25 (join canonical_reasons);
            BuyLine "XYZ" 25 (join canonical_reasons)]
           (snd (entry_phase bull_env default_cfg fresh_world))
           []
           (snd (exit_phase bull_env default_cfg
                   (snd (entry_phase bull_env default_cfg fresh_world))))
           eq_refl eq_refl).
Defined.
